(** * The task routes of the to-do list backend

    A shallow embedding of [routes/tasks.js] (the Express router for
    [/api/tasks]) and of the Mongoose schema [models/Task.js], with the
    properties of the task service stated and proved over it.

    Conventions of the embedding.
    - Instants are [Z], milliseconds since the Unix epoch (what [Date]
      holds).  The clock reads of one request ([new Date()], [Date.now])
      are taken at one instant, [now].
    - A document identifier ([ObjectId]) is the 96-bit number it encodes;
      a path parameter is a string and is cast, as Mongoose casts it.
    - The collection is a finite map from [_id] to the stored document.
    - Strings are sequences of 8-bit characters, so a length is a number
      of characters of that kind.
    - A request body carries the eleven paths that the schema declares
      and no other key: a string where the schema has a String, a number
      for [order], the text of a date for the two validated dates and an
      instant for [createdAt] and [completedAt].  A body with further keys
      ([_id], a property of the document such as [isNew]) is outside the
      embedding, and so is the [updatedAt] that [timestamps: true] adds to
      a document and stamps at every write.
    - The server's local time is at a constant offset from UTC, and
      instants are not bounded as those of [Date] are: a statement about a
      local day holds of the code for a zone without changes of offset and
      for instants inside the range of [Date]. *)

From Stdlib Require Import ZArith Lia Ascii String.
From stdpp Require Import gmap strings list fin_maps sorting.

Local Open Scope string_scope.
Local Open Scope list_scope.
Local Open Scope Z_scope.

(** ** Identifiers *)

Definition ObjectId := N.

Definition hexDigit (a : ascii) : option N :=
  let n := N_of_ascii a in
  if ((48 <=? n) && (n <=? 57))%N then Some (n - 48)%N
  else if ((97 <=? n) && (n <=? 102))%N then Some (n - 87)%N
  else if ((65 <=? n) && (n <=? 70))%N then Some (n - 55)%N
  else None.

Fixpoint hexValue (acc : N) (s : string) : option N :=
  match s with
  | EmptyString => Some acc
  | String a s' =>
      match hexDigit a with
      | Some d => hexValue (16 * acc + d)%N s'
      | None => None
      end
  end.

(** Mongoose's cast of a string to an ObjectId: 24 hexadecimal digits, and a
    [CastError] ([None]) otherwise. *)
Definition castObjectId (s : string) : option ObjectId :=
  if (String.length s =? 24)%nat then hexValue 0%N s else None.

(** ** The schema: [models/Task.js] *)

Record Task := mkTask {
  title : string;
  description : option string;
  category : string;
  priority : string;
  status : string;
  dueDate : option Z;
  reminder : option Z;
  order : Z;
  user : ObjectId;
  createdAt : Z;
  completedAt : option Z
}.

Definition categories : list string := ["Personal"; "Work"; "Study"; "Health"; "Other"].
Definition priorities : list string := ["Low"; "Medium"; "High"].
Definition statuses : list string := ["Pending"; "In Progress"; "Completed"].

(** [validator.isIn(str, options)] and the schema's [enum]. *)
Definition isIn (str : string) (options : list string) : bool :=
  existsb (String.eqb str) options.

(** The text of a date as a request carries it, seen through the two
    observations the code makes of it: [isISO8601(value)] and
    [new Date(value).getTime()] ([None] for an Invalid Date). *)
Record dateText := mkDateText {
  isISO8601 : bool;
  getTime : option Z
}.

(** [validator.trim] / the schema's [trim: true]: white space is removed at
    both ends. *)
Fixpoint ltrim (l : list ascii) : list ascii :=
  match l with
  | [] => []
  | a :: l' => if Ascii.is_space a then ltrim l' else l
  end.

Definition rtrim (l : list ascii) : list ascii := rev (ltrim (rev l)).

Definition trim (s : string) : string :=
  string_of_list_ascii (rtrim (ltrim (list_ascii_of_string s))).

(** A text with no white space in front. *)
Definition clean (l : list ascii) : Prop :=
  match l with
  | [] => True
  | a :: _ => Ascii.is_space a = false
  end.

(** The schema validators, as [save] runs them on a document. *)
Definition futureOrUnset (now : Z) (value : option Z) : bool :=
  match value with
  | None => true
  | Some v => now <? v
  end.

Definition maxlength (n : nat) (s : string) : bool := (String.length s <=? n)%nat.

Definition schemaValid (now : Z) (t : Task) : bool :=
  negb (String.eqb (title t) "") && maxlength 100 (title t)
  && from_option (maxlength 500) true (description t)
  && isIn (category t) categories
  && isIn (priority t) priorities
  && isIn (status t) statuses
  && futureOrUnset now (dueDate t)
  && futureOrUnset now (reminder t).

(** [taskSchema.methods.isOverdue] and the virtual [age]. *)
Definition isOverdue (now : Z) (t : Task) : bool :=
  match dueDate t with
  | None => false
  | Some d => (d <? now) && negb (String.eqb (status t) "Completed")
  end.

Definition age (now : Z) (t : Task) : Z := (now - createdAt t) / (1000 * 60 * 60 * 24).

(** ** Request bodies *)

Module Body.
Record t := mk {
  title : option string;
  description : option string;
  category : option string;
  priority : option string;
  status : option string;
  dueDate : option dateText;
  reminder : option dateText;
  order : option Z;
  user : option string;
  createdAt : option Z;
  completedAt : option Z
}.

Definition empty : t :=
  mk None None None None None None None None None None None.
End Body.

(** ** [validateTask]: the express-validator chains *)

Record ValidationError := mkError {
  path : string;
  msg : string
}.

Definition check (ok : bool) (field message : string) : list ValidationError :=
  if ok then [] else [mkError field message].

(** express-validator hands a standard validator [toString(value)], the
    empty string for [undefined]. *)
Definition toString (value : option string) : string := from_option id "" value.

(** [body('title').trim().notEmpty()...isLength({ max: 100 })]: the chain is
    not optional, so it also runs on an absent title. *)
Definition validateTitle (value : option string) : option string * list ValidationError :=
  let s := trim (toString value) in
  (Some s,
   check (negb (String.eqb s "")) "title" "Title is required"
   ++ check (maxlength 100 s) "title" "Title cannot be more than 100 characters").

(** [body('description').optional().trim().isLength({ max: 500 })]. *)
Definition validateDescription (value : option string) : option string * list ValidationError :=
  match value with
  | None => (None, [])
  | Some d =>
      let s := trim d in
      (Some s, check (maxlength 500 s) "description"
                 "Description cannot be more than 500 characters")
  end.

(** [body(field).isIn(options)], not optional. *)
Definition validateRequiredEnum (field message : string) (options : list string)
    (value : option string) : list ValidationError :=
  check (isIn (toString value) options) field message.

(** [body('status').optional().isIn(...)]. *)
Definition validateOptionalEnum (field message : string) (options : list string)
    (value : option string) : list ValidationError :=
  match value with
  | None => []
  | Some v => check (isIn v options) field message
  end.

(** The custom validator: [value && new Date(value) <= new Date()] throws.
    A comparison with an Invalid Date is false, and the empty string is
    such a text. *)
Definition notInFuture (now : Z) (value : dateText) : bool :=
  match getTime value with
  | Some v => v <=? now
  | None => false
  end.

(** [body(field).optional().isISO8601().withMessage(..).custom(..)]. *)
Definition validateDate (field formatMessage futureMessage : string) (now : Z)
    (value : option dateText) : list ValidationError :=
  match value with
  | None => []
  | Some v =>
      check (isISO8601 v) field formatMessage
      ++ check (negb (notInFuture now v)) field futureMessage
  end.

(** The middleware array: it sanitizes [req.body] in place and records the
    errors that [validationResult(req)] then returns. *)
Definition validateTask (now : Z) (b : Body.t) : Body.t * list ValidationError :=
  let '(title', eTitle) := validateTitle (Body.title b) in
  let '(description', eDescription) := validateDescription (Body.description b) in
  (Body.mk title' description' (Body.category b) (Body.priority b) (Body.status b)
     (Body.dueDate b) (Body.reminder b) (Body.order b) (Body.user b)
     (Body.createdAt b) (Body.completedAt b),
   eTitle ++ eDescription
   ++ validateRequiredEnum "category" "Invalid category" categories (Body.category b)
   ++ validateRequiredEnum "priority" "Invalid priority level" priorities (Body.priority b)
   ++ validateOptionalEnum "status" "Invalid status" statuses (Body.status b)
   ++ validateDate "dueDate" "Invalid due date format" "Due date must be in the future"
        now (Body.dueDate b)
   ++ validateDate "reminder" "Invalid reminder date format" "Reminder must be in the future"
        now (Body.reminder b)).

(** What a payload without errors satisfies. *)
Record Accepted (now : Z) (b : Body.t) : Prop := {
  acc_title : trim (toString (Body.title b)) ≠ "";
  acc_title_len : maxlength 100 (trim (toString (Body.title b))) = true;
  acc_description :
    ∀ d, Body.description b = Some d → maxlength 500 (trim d) = true;
  acc_category : isIn (toString (Body.category b)) categories = true;
  acc_priority : isIn (toString (Body.priority b)) priorities = true;
  acc_status : ∀ v, Body.status b = Some v → isIn v statuses = true;
  acc_dueDate :
    ∀ v, Body.dueDate b = Some v → isISO8601 v = true ∧ notInFuture now v = false;
  acc_reminder :
    ∀ v, Body.reminder b = Some v → isISO8601 v = true ∧ notInFuture now v = false
}.

(** ** The collection and the responses *)

Abbreviation Store := (gmap ObjectId Task).

(** A stored document as a query returns it: its [_id] and its fields. *)
Abbreviation Doc := (ObjectId * Task)%type.

Inductive Response :=
  | RespTasks (data : list Doc)               (* 200, the tasks found *)
  | RespTask (id : ObjectId) (data : Task)    (* 200, the updated task *)
  | RespCreated (id : ObjectId) (data : Task) (* 201, the new task *)
  | RespMessage (message : string)            (* 200, success and a message *)
  | RespValidation (errors : list ValidationError) (* 400, errors.array() *)
  | RespBadRequest (message : string)         (* 400 and a message *)
  | RespNotFound                              (* 404, 'Task not found' *)
  | RespServerError                           (* 500, the catch blocks *)
  | RespNoRoute.                              (* no route matched *)

Definition statusCode (r : Response) : Z :=
  match r with
  | RespTasks _ | RespTask _ _ | RespMessage _ => 200
  | RespCreated _ _ => 201
  | RespValidation _ | RespBadRequest _ => 400
  | RespNotFound | RespNoRoute => 404
  | RespServerError => 500
  end.

(** What a request finds around it: the clock, the server's time zone as
    the offset of local time from UTC in milliseconds, the [_id] that the
    driver generates for a new document, and the instant that [Date] reads
    from a text that is not of the date-only form ([None]: Invalid Date). *)
Record Env := mkEnv {
  clock : Z;
  tzOffset : Z;
  nextId : ObjectId;
  readDate : string → option Z
}.

(** ** Documents: construction, assignment, [save] *)

(** Mongoose's cast of a date text to a Date; [None] is a [CastError]. *)
Definition castDate (value : option dateText) : option (option Z) :=
  match value with
  | None => Some None
  | Some v => Some <$> getTime v
  end.

(** [new Task({ ...req.body, user: req.user.id })]: the casts, the schema's
    [trim] and its defaults.  The [user] of the body is overridden. *)
Definition newTask (now : Z) (caller : ObjectId) (b : Body.t) : option Task :=
  due ← castDate (Body.dueDate b);
  rem ← castDate (Body.reminder b);
  Some {| title := trim (toString (Body.title b));
          description := trim <$> Body.description b;
          category := default "Personal" (Body.category b);
          priority := default "Medium" (Body.priority b);
          status := default "Pending" (Body.status b);
          dueDate := due;
          reminder := rem;
          order := default 0 (Body.order b);
          user := caller;
          createdAt := default now (Body.createdAt b);
          completedAt := Body.completedAt b |}.

(** [Object.keys(req.body).forEach(key => { task[key] = req.body[key]; })]:
    every key of the body is assigned, through the schema's casts. *)
Definition assign (b : Body.t) (t : Task) : option Task :=
  due ← match Body.dueDate b with
        | None => Some (dueDate t)
        | Some v => Some <$> getTime v
        end;
  rem ← match Body.reminder b with
        | None => Some (reminder t)
        | Some v => Some <$> getTime v
        end;
  owner ← match Body.user b with
          | None => Some (user t)
          | Some s => castObjectId s
          end;
  Some {| title := from_option trim (title t) (Body.title b);
          description := from_option (λ d, Some (trim d)) (description t) (Body.description b);
          category := default (category t) (Body.category b);
          priority := default (priority t) (Body.priority b);
          status := default (status t) (Body.status b);
          dueDate := due;
          reminder := rem;
          order := default (order t) (Body.order b);
          user := owner;
          createdAt := default (createdAt t) (Body.createdAt b);
          completedAt := from_option Some (completedAt t) (Body.completedAt b) |}.

Definition setCompletedAt (v : Z) (t : Task) : Task :=
  {| title := title t; description := description t; category := category t;
     priority := priority t; status := status t; dueDate := dueDate t;
     reminder := reminder t; order := order t; user := user t;
     createdAt := createdAt t; completedAt := Some v |}.

Definition setOrder (v : Z) (t : Task) : Task :=
  {| title := title t; description := description t; category := category t;
     priority := priority t; status := status t; dueDate := dueDate t;
     reminder := reminder t; order := v; user := user t;
     createdAt := createdAt t; completedAt := completedAt t |}.

(** [Task.findOne({ _id: id, user: owner })]. *)
Definition findOne (id owner : ObjectId) (store : Store) : option Task :=
  t ← store !! id;
  if decide (user t = owner) then Some t else None.

(** ** The handlers *)

(** [router.post('/', validateTask, ...)]. *)
Definition createTask (env : Env) (caller : ObjectId) (b : Body.t) (store : Store)
    : Response * Store :=
  let '(b', errors) := validateTask (clock env) b in
  match errors with
  | _ :: _ => (RespValidation errors, store)
  | [] =>
      match newTask (clock env) caller b' with
      | None => (RespServerError, store)
      | Some task =>
          if schemaValid (clock env) task then
            match store !! nextId env with
            | Some _ => (RespServerError, store)
            | None => (RespCreated (nextId env) task, <[nextId env := task]> store)
            end
          else (RespServerError, store)
      end
  end.

(** [router.put('/:id', validateTask, ...)]. *)
Definition updateTask (env : Env) (caller : ObjectId) (id : string) (b : Body.t)
    (store : Store) : Response * Store :=
  let '(b', errors) := validateTask (clock env) b in
  match errors with
  | _ :: _ => (RespValidation errors, store)
  | [] =>
      match castObjectId id with
      | None => (RespServerError, store)
      | Some oid =>
          match findOne oid caller store with
          | None => (RespNotFound, store)
          | Some task =>
              match assign b' task with
              | None => (RespServerError, store)
              | Some task1 =>
                  (* the test reads [task.status] after the assignment above *)
                  let task2 :=
                    if bool_decide (Body.status b' = Some "Completed")
                       && negb (String.eqb (status task1) "Completed")
                    then setCompletedAt (clock env) task1
                    else task1 in
                  if schemaValid (clock env) task2
                  then (RespTask oid task2, <[oid := task2]> store)
                  else (RespServerError, store)
              end
          end
      end
  end.

(** [router.delete('/:id', ...)]: [Task.findOneAndDelete]. *)
Definition deleteTask (caller : ObjectId) (id : string) (store : Store)
    : Response * Store :=
  match castObjectId id with
  | None => (RespServerError, store)
  | Some oid =>
      match findOne oid caller store with
      | None => (RespNotFound, store)
      | Some _ => (RespMessage "Task deleted successfully", delete oid store)
      end
  end.

(** ** Dates of the query string *)

Definition msPerDay : Z := 86400000.

(** The number of days from 1970-01-01 to a date of the proleptic Gregorian
    calendar. *)
Definition daysFromCivil (y m d : Z) : Z :=
  let y' := if m <=? 2 then y - 1 else y in
  let era := y' / 400 in
  let yoe := y' - era * 400 in
  let doy := (153 * (if 2 <? m then m - 3 else m + 9) + 2) / 5 + d - 1 in
  let doe := yoe * 365 + yoe / 4 - yoe / 100 + doy in
  era * 146097 + doe - 719468.

(** A decimal numeral. *)
Definition decimal (s : string) : option Z :=
  foldl (λ acc a, n ← acc; d ← Ascii.is_nat a; Some (10 * n + Z.of_nat d))
        (Some 0) (list_ascii_of_string s).

(** The date-only form "YYYY-MM-DD" of a date text. *)
Definition parseDateOnly (s : string) : option (Z * Z * Z) :=
  if (String.length s =? 10)%nat
     && bool_decide (String.get 4 s = Some "-"%char)
     && bool_decide (String.get 7 s = Some "-"%char)
  then
    y ← decimal (String.substring 0 4 s);
    m ← decimal (String.substring 5 2 s);
    d ← decimal (String.substring 8 2 s);
    if (1 <=? m) && (m <=? 12) && (1 <=? d) && (d <=? 31) then Some (y, m, d) else None
  else None.

(** [new Date(text)]: the date-only form is read as UTC midnight of that
    date; [None] is an Invalid Date. *)
Definition newDate (env : Env) (text : string) : option Z :=
  match parseDateOnly text with
  | Some (y, m, d) => Some (daysFromCivil y m d * msPerDay)
  | None => readDate env text
  end.

(** [date.setHours(h, m, s, ms)]: the time of day is replaced, on the local
    calendar day of the instant. *)
Definition setHours (tz : Z) (t : Z) (h m s ms : Z) : Z :=
  (t + tz) / msPerDay * msPerDay - tz + h * 3600000 + m * 60000 + s * 1000 + ms.

(** The first instant of a calendar day, counted from 1970-01-01, in the
    local time of a server. *)
Definition localMidnight (tz day : Z) : Z := day * msPerDay - tz.

(** ** Queries *)

Module Filter.
(** The filter document handed to [Task.find]; [dueDate] holds
    [{ $gte, $lte }]. *)
Record t := mk {
  user : ObjectId;
  category : option string;
  status : option string;
  priority : option string;
  dueDate : option (Z * Z)
}.
End Filter.

Definition eqField (wanted : option string) (actual : string) : bool :=
  match wanted with
  | None => true
  | Some v => String.eqb v actual
  end.

Definition inRange (wanted : option (Z * Z)) (actual : option Z) : bool :=
  match wanted, actual with
  | None, _ => true
  | Some (lo, hi), Some v => (lo <=? v) && (v <=? hi)
  | Some _, None => false
  end.

Definition matches (f : Filter.t) (d : Doc) : bool :=
  bool_decide (user d.2 = Filter.user f)
  && eqField (Filter.category f) (category d.2)
  && eqField (Filter.status f) (status d.2)
  && eqField (Filter.priority f) (priority d.2)
  && inRange (Filter.dueDate f) (dueDate d.2).

Definition byOrder (a b : Doc) : Prop := order a.2 ≤ order b.2.

#[global] Instance byOrder_dec a b : Decision (byOrder a b).
Proof. unfold byOrder. apply _. Defined.

(** [Task.find(filter).sort({ order: 1 })]. *)
Definition find (f : Filter.t) (store : Store) : list Doc :=
  filter (λ d : Doc, Is_true (matches f d)) (map_to_list store).

Definition sortByOrder (docs : list Doc) : list Doc := merge_sort byOrder docs.

Module Query.
(** [req.query]. *)
Record t := mk {
  category : option string;
  status : option string;
  priority : option string;
  dueDate : option string
}.

Definition empty : t := mk None None None None.
End Query.

(** [if (category) query.category = category]: absent and empty alike. *)
Definition truthy (v : option string) : option string :=
  match v with
  | Some s => if String.eqb s "" then None else Some s
  | None => None
  end.

(** The day of a date text, from [setHours(0, 0, 0, 0)] to
    [setHours(23, 59, 59, 999)]; [None] when the text gives an Invalid
    Date, which the query's cast rejects. *)
Definition dayRange (env : Env) (text : string) : option (Z * Z) :=
  t ← newDate env text;
  Some (setHours (tzOffset env) t 0 0 0 0, setHours (tzOffset env) t 23 59 59 999).

(** [router.get('/', ...)]. *)
Definition listTasks (env : Env) (caller : ObjectId) (q : Query.t) (store : Store)
    : Response :=
  let range :=
    match truthy (Query.dueDate q) with
    | None => Some None
    | Some text => Some <$> dayRange env text
    end in
  match range with
  | None => RespServerError
  | Some due =>
      RespTasks (sortByOrder (find
        (Filter.mk caller (truthy (Query.category q)) (truthy (Query.status q))
           (truthy (Query.priority q)) due) store))
  end.

(** [router.get('/category/:category', ...)]. *)
Definition tasksByCategory (caller : ObjectId) (c : string) (store : Store) : Response :=
  RespTasks (sortByOrder (find (Filter.mk caller (Some c) None None None) store)).

(** [router.get('/due/:date', ...)]. *)
Definition tasksByDueDate (env : Env) (caller : ObjectId) (date : string) (store : Store)
    : Response :=
  match dayRange env date with
  | None => RespServerError
  | Some r => RespTasks (sortByOrder (find (Filter.mk caller None None None (Some r)) store))
  end.

(** ** Reordering *)

(** [req.body.tasks]: an array of objects with an [_id], or anything else. *)
Inductive TasksField :=
  | NotAnArray
  | TasksArray (items : list ObjectId).

(** One [updateOne] of the bulk write: filter [{ _id, user }], update
    [{ $set: { order: index } }]. *)
Definition updateOne (owner : ObjectId) (store : Store) (op : ObjectId * Z) : Store :=
  match findOne op.1 owner store with
  | Some t => <[op.1 := setOrder op.2 t]> store
  | None => store
  end.

(** [Task.bulkWrite(bulkOps)]: the operations in their order. *)
Definition bulkWrite (owner : ObjectId) (ops : list (ObjectId * Z)) (store : Store) : Store :=
  foldl (updateOne owner) store ops.

(** [tasks.map((task, index) => ({ updateOne: ... }))]. *)
Definition bulkOps (items : list ObjectId) : list (ObjectId * Z) :=
  imap (λ index id, (id, Z.of_nat index)) items.

(** [router.put('/reorder', ...)]. *)
Definition reorderTasks (caller : ObjectId) (tasks : TasksField) (store : Store)
    : Response * Store :=
  match tasks with
  | NotAnArray => (RespBadRequest "Invalid request format", store)
  | TasksArray items =>
      (RespMessage "Tasks reordered successfully",
       bulkWrite caller (bulkOps items) store)
  end.

(** Two documents that differ at most in their [order]. *)
Definition sameButOrder (t t' : Task) : Prop := ∀ v, setOrder v t' = setOrder v t.

(** The collection after the bulk write, identifier by identifier. *)
Record Reordered (caller : ObjectId) (store : Store) (items : list ObjectId)
    (st : Store) : Prop := {
  ro_absent : ∀ id, store !! id = None → st !! id = None;
  ro_kept : ∀ id t, store !! id = Some t →
            ∃ t', st !! id = Some t' ∧ sameButOrder t t';
  ro_foreign : ∀ id t, store !! id = Some t → user t ≠ caller → st !! id = Some t;
  ro_unnamed : ∀ id, id ∉ items → st !! id = store !! id;
  ro_position : ∀ id t i,
    store !! id = Some t → user t = caller →
    items !! i = Some id → (∀ j, (i < j)%nat → items !! j ≠ Some id) →
    st !! id = Some (setOrder (Z.of_nat i) t)
}.


(** ** The router *)

Inductive Method := GET | POST | PUT | DELETE.

#[global] Instance Method_eq_dec : EqDecision Method.
Proof. solve_decision. Defined.

Inductive Segment :=
  | Lit (s : string)
  | Param (name : string).

Inductive Handler :=
  | HList | HCreate | HUpdate | HDelete | HReorder | HByCategory | HByDueDate.

(** The routes in the order of their registration. *)
Definition routes : list (Method * list Segment * Handler) :=
  [ (GET, [], HList);
    (POST, [], HCreate);
    (PUT, [Param "id"], HUpdate);
    (DELETE, [Param "id"], HDelete);
    (PUT, [Lit "reorder"], HReorder);
    (GET, [Lit "category"; Param "category"], HByCategory);
    (GET, [Lit "due"; Param "date"], HByDueDate) ].

(** A pattern against the segments of a path; the result binds the
    parameters.  A parameter takes one non-empty segment. *)
Fixpoint matchPath (pattern : list Segment) (segments : list string)
    : option (list (string * string)) :=
  match pattern, segments with
  | [], [] => Some []
  | Lit s :: pattern', x :: segments' =>
      if String.eqb s x then matchPath pattern' segments' else None
  | Param name :: pattern', x :: segments' =>
      if String.eqb x "" then None
      else cons (name, x) <$> matchPath pattern' segments'
  | _, _ => None
  end.

(** Express tries the routes in order; every handler here answers without
    calling [next], so the first route that matches is the one that runs. *)
Fixpoint dispatch (rs : list (Method * list Segment * Handler)) (m : Method)
    (segments : list string) : option (Handler * list (string * string)) :=
  match rs with
  | [] => None
  | (m', pattern, h) :: rs' =>
      if decide (m' = m) then
        match matchPath pattern segments with
        | Some params => Some (h, params)
        | None => dispatch rs' m segments
        end
      else dispatch rs' m segments
  end.

Record Request := mkRequest {
  method : Method;
  segments : list string;      (* the path below the mount point *)
  caller : ObjectId;           (* [req.user.id], set by the auth middleware *)
  query : Query.t;
  body : Body.t;
  tasks : TasksField           (* [req.body.tasks] *)
}.

Definition param (name : string) (params : list (string * string)) : string :=
  default "" (snd <$> List.find (λ p, String.eqb p.1 name) params).

Definition handle (env : Env) (req : Request) (store : Store) : Response * Store :=
  match dispatch routes (method req) (segments req) with
  | None => (RespNoRoute, store)
  | Some (h, params) =>
      match h with
      | HList => (listTasks env (caller req) (query req) store, store)
      | HCreate => createTask env (caller req) (body req) store
      | HUpdate => updateTask env (caller req) (param "id" params) (body req) store
      | HDelete => deleteTask (caller req) (param "id" params) store
      | HReorder => reorderTasks (caller req) (tasks req) store
      | HByCategory => (tasksByCategory (caller req) (param "category" params) store, store)
      | HByDueDate =>
          (tasksByDueDate env (caller req) (param "date" params) store, store)
      end
  end.

(** ** The auth middleware: [middleware/auth.js] *)

(** What [jwt.verify(token, secret)] does with a token: it returns the
    decoded payload, of which the routes read [id], or it throws an error
    that has a [name]. *)
Inductive Verified :=
  | Decoded (id : ObjectId)
  | Thrown (name : string).

(** What the middleware finds around it: [process.env.JWT_SECRET] and the
    verification of the token library. *)
Record AuthEnv := mkAuthEnv {
  JWT_SECRET : option string;
  verify : string → string → Verified
}.

(** [process.env.JWT_SECRET || 'your-secret-key']. *)
Definition secretOrKey (e : AuthEnv) : string :=
  default "your-secret-key" (truthy (JWT_SECRET e)).

(** The body of a 401 answer. *)
Record Denial := mkDenial {
  message : string;
  error : string
}.

(** [module.exports = function(req, res, next)]: [inr] is [next()] with
    [req.user] set, [inl] is the 401 answer. *)
Definition auth (e : AuthEnv) (token : option string) : Denial + ObjectId :=
  match truthy token with
  | None => inl (mkDenial "No token, authorization denied" "AUTH_TOKEN_MISSING")
  | Some tok =>
      match verify e tok (secretOrKey e) with
      | Decoded id => inr id
      | Thrown name =>
          if String.eqb name "TokenExpiredError"
          then inl (mkDenial "Token has expired" "TOKEN_EXPIRED")
          else if String.eqb name "JsonWebTokenError"
          then inl (mkDenial "Invalid token" "INVALID_TOKEN")
          else inl (mkDenial "Token verification failed" "TOKEN_VERIFICATION_FAILED")
      end
  end.

(** [req.user = decoded]. *)
Definition withUser (id : ObjectId) (req : Request) : Request :=
  mkRequest (method req) (segments req) id (query req) (body req) (tasks req).

Inductive Reply :=
  | Unauthorized (denial : Denial)   (* 401, from the middleware *)
  | Answer (response : Response).    (* what the route answers *)

(** [router.use(auth)] in front of every route: a request with its
    [x-auth-token] header. *)
Definition serve (e : AuthEnv) (env : Env) (token : option string) (req : Request)
    (store : Store) : Reply * Store :=
  match auth e token with
  | inl denial => (Unauthorized denial, store)
  | inr id =>
      let '(response, store') := handle env (withUser id req) store in
      (Answer response, store')
  end.

(** ** What the stored documents satisfy *)

(** The validators of the schema that do not read the clock, and the effect
    of its [trim] on the title. *)
Definition wellFormed (t : Task) : bool :=
  negb (String.eqb (title t) "") && maxlength 100 (title t)
  && String.eqb (trim (title t)) (title t)
  && from_option (maxlength 500) true (description t)
  && isIn (category t) categories
  && isIn (priority t) priorities
  && isIn (status t) statuses.

Definition allWellFormed (store : Store) : Prop :=
  ∀ id t, store !! id = Some t → wellFormed t = true.

(** The rank of a document as a position, for a rank that is one. *)
Definition rank (d : Doc) : nat := Z.to_nat (order d.2).

(** ** A running example *)

(** Two principals, the second also as the text of its identifier. *)
Definition u1 : ObjectId := 17%N.
Definition u2 : ObjectId := 18%N.
Definition u2Text : string := "000000000000000000000012".

(** The identifier of the first task, as a path carries it. *)
Definition firstId : string := "000000000000000000000001".

(** 2024-05-10 12:00 UTC on a server that runs on UTC. *)
Definition noon : Env := mkEnv 1715342400000 0 1%N (λ _, None).

Definition buyMilk : Body.t :=
  Body.mk (Some "Buy milk") None (Some "Personal") (Some "Low") None None None None
    None None None.

Definition milk : Task :=
  mkTask "Buy milk" None "Personal" "Low" "Pending" None None 0 u1 1715342400000 None.

Definition statusOnly : Body.t :=
  Body.mk None None None None (Some "Completed") None None None None None None.

Definition completeMilk : Body.t :=
  Body.mk (Some "Buy milk") None (Some "Personal") (Some "Low") (Some "Completed") None
    None None None None None.

Definition withoutCategory : Body.t :=
  Body.mk (Some "Buy milk") None None (Some "Low") None None None None None None None.

Definition withoutPriority : Body.t :=
  Body.mk (Some "Buy milk") None (Some "Personal") None None None None None None None None.

(** 2024-05-09 12:00 UTC, a day before [noon]. *)
Definition yesterday : dateText := mkDateText true (Some 1715256000000).

Definition dueYesterday : Body.t :=
  Body.mk (Some "Buy milk") None (Some "Personal") (Some "Low") None (Some yesterday)
    None None None None None.

Definition giveAway : Body.t :=
  Body.mk (Some "Buy milk") None (Some "Personal") (Some "Low") None None None None
    (Some u2Text) None None.

(** Three tasks of the first principal and one of the second. *)
Definition plain (owner : ObjectId) (name : string) (rank : Z) : Task :=
  mkTask name None "Personal" "Low" "Pending" None None rank owner 1715342400000 None.

Definition fourTasks : Store :=
  <[1%N := plain u1 "one" 5]> (<[2%N := plain u1 "two" 6]>
    (<[3%N := plain u1 "three" 7]> {[4%N := plain u2 "four" 8]})).

(** A server five hours behind UTC, at 2024-05-10 12:00 UTC. *)
Definition west : Env := mkEnv 1715342400000 (-18000000) 1%N (λ _, None).

(** Two tasks of the first principal: one due on 2024-05-10 at 10:00 of the
    local time of [west] (15:00 UTC), one due a day earlier at that hour. *)
Definition dueTenth : Task :=
  mkTask "tenth" None "Personal" "Low" "Pending" (Some 1715353200000) None 0 u1
    1715000000000 None.

Definition dueNinth : Task :=
  mkTask "ninth" None "Personal" "Low" "Pending" (Some 1715266800000) None 1 u1
    1715000000000 None.

Definition twoDue : Store := <[1%N := dueTenth]> {[2%N := dueNinth]}.

Definition onTenth : Query.t := Query.mk None None None (Some "2024-05-10").

(** Requests of the first principal. *)
Definition request (m : Method) (segs : list string) (b : Body.t) : Request :=
  mkRequest m segs u1 Query.empty b NotAnArray.

(** The identifier of the fourth task, which the second principal owns. *)
Definition fourthId : string := "000000000000000000000004".

(** A token library that accepts one token, for the first principal, and
    reports every other token as expired. *)
Definition oneToken : AuthEnv :=
  mkAuthEnv None
    (λ tok key, if String.eqb tok "good" && String.eqb key "your-secret-key"
                then Decoded u1 else Thrown "TokenExpiredError").

Definition blankTitle : Body.t :=
  Body.mk (Some "   ") None (Some "Personal") (Some "Low") None None None None
    None None None.

Definition completed : Task :=
  mkTask "Buy milk" None "Personal" "Low" "Completed" None None 0 u1 1715342400000
    (Some 1715342400000).

Definition reopenMilk : Body.t :=
  Body.mk (Some "Buy milk") None (Some "Personal") (Some "Low") (Some "Pending") None
    None None None None None.

Definition bornCompleted : Body.t :=
  Body.mk (Some " Buy milk ") None (Some "Personal") (Some "Low") (Some "Completed") None
    None None None None None.

(** 2024-05-11 12:00 UTC, a day after [noon]. *)
Definition tomorrow : dateText := mkDateText true (Some 1715428800000).

Definition dueTomorrow : Body.t :=
  Body.mk (Some "Buy milk") None (Some "Personal") (Some "Low") None (Some tomorrow)
    None None None None None.

(** The first and the last instant that [Date] holds, and the instants that
    are a day and more away from both. *)
Definition maxDate : Z := 8640000000000000.

Definition awayFromEnds (at_ : Z) : Prop :=
  - maxDate + msPerDay ≤ at_ ≤ maxDate - msPerDay.

(** * Properties *)

(** ** The sanitizer *)

Section Trim.

Lemma ltrim_clean l : clean (ltrim l).
Proof.
  induction l as [|a l IH]; simpl; [exact I|].
  destruct (Ascii.is_space a) eqn:E; [exact IH | exact E].
Qed.

Lemma ltrim_id l : clean l → ltrim l = l.
Proof. destruct l as [|a l]; simpl; [done|]. by intros ->. Qed.

Lemma ltrim_snoc l c :
  Ascii.is_space c = false → ∃ z, ltrim (l ++ [c]) = z ++ [c].
Proof.
  intros Hc. induction l as [|a l IH]; simpl.
  - rewrite Hc. by exists [].
  - destruct (Ascii.is_space a); [exact IH|]. by exists (a :: l).
Qed.

Lemma rtrim_clean l : clean l → clean (rtrim l).
Proof.
  destruct l as [|c r]; [done|]. simpl. intros Hc. unfold rtrim. simpl.
  destruct (ltrim_snoc (rev r) c Hc) as [z ->].
  rewrite rev_app_distr. exact Hc.
Qed.

Lemma rtrim_id l : clean (rev l) → rtrim l = l.
Proof. intros H. unfold rtrim. rewrite (ltrim_id _ H). apply rev_involutive. Qed.

Lemma rtrim_rev_clean l : clean (rev (rtrim l)).
Proof. unfold rtrim. rewrite rev_involutive. apply ltrim_clean. Qed.

(** Trimming twice is trimming once: the schema's [trim] does nothing to
    a title that the validator's [trim] has sanitized. *)
Lemma trim_idem s : trim (trim s) = trim s.
Proof.
  unfold trim. rewrite list_ascii_of_string_of_list_ascii.
  set (x := rtrim (ltrim (list_ascii_of_string s))).
  rewrite (ltrim_id x) by apply rtrim_clean, ltrim_clean.
  by rewrite (rtrim_id x) by apply rtrim_rev_clean.
Qed.

End Trim.

(** ** Validation *)

Section Validation.

Lemma check_nil ok field message : check ok field message = [] ↔ ok = true.
Proof. destruct ok; simpl; split; congruence. Qed.

Lemma check_fails field message :
  mkError field message ∈ check false field message.
Proof. simpl. apply list_elem_of_here. Qed.

(** The errors of a payload, chain by chain. *)
Lemma validateTask_errors now b :
  (validateTask now b).2 =
    (validateTitle (Body.title b)).2 ++ (validateDescription (Body.description b)).2
    ++ validateRequiredEnum "category" "Invalid category" categories (Body.category b)
    ++ validateRequiredEnum "priority" "Invalid priority level" priorities (Body.priority b)
    ++ validateOptionalEnum "status" "Invalid status" statuses (Body.status b)
    ++ validateDate "dueDate" "Invalid due date format" "Due date must be in the future"
         now (Body.dueDate b)
    ++ validateDate "reminder" "Invalid reminder date format"
         "Reminder must be in the future" now (Body.reminder b).
Proof.
  unfold validateTask.
  destruct (validateTitle (Body.title b)), (validateDescription (Body.description b)).
  reflexivity.
Qed.

(** The body that the handler sees after the sanitizers. *)
Lemma validateTask_body now b :
  (validateTask now b).1 =
    Body.mk (Some (trim (toString (Body.title b)))) (trim <$> Body.description b)
      (Body.category b) (Body.priority b) (Body.status b) (Body.dueDate b)
      (Body.reminder b) (Body.order b) (Body.user b) (Body.createdAt b)
      (Body.completedAt b).
Proof. unfold validateTask. destruct (Body.description b); reflexivity. Qed.

Lemma absent_title_error : (validateTitle None).2 = [mkError "title" "Title is required"].
Proof. reflexivity. Qed.

Lemma validateDate_nil field m1 m2 now value :
  validateDate field m1 m2 now value = [] →
  ∀ v, value = Some v → isISO8601 v = true ∧ notInFuture now v = false.
Proof.
  intros H v ->. simpl in H. apply app_eq_nil in H as [H1 H2].
  apply check_nil in H1, H2. split; [done|]. by apply negb_true_iff.
Qed.

Lemma validateTask_accepted now b : (validateTask now b).2 = [] → Accepted now b.
Proof.
  rewrite validateTask_errors. intros H.
  repeat (apply app_eq_nil in H as [? H]).
  unfold validateTitle in *; simpl in *.
  match goal with H : _ ++ _ = [] |- _ => apply app_eq_nil in H as [Ha Hb] end.
  apply check_nil in Ha, Hb.
  split.
  - intros E. rewrite E in Ha. discriminate.
  - exact Hb.
  - intros d E. match goal with H : (validateDescription _).2 = [] |- _ =>
      rewrite E in H; simpl in H; by apply check_nil in H end.
  - by apply check_nil with "category" "Invalid category".
  - by apply check_nil with "priority" "Invalid priority level".
  - intros v E. match goal with H : validateOptionalEnum _ _ _ _ = [] |- _ =>
      rewrite E in H; simpl in H; by apply check_nil in H end.
  - eauto using validateDate_nil.
  - eauto using validateDate_nil.
Qed.

End Validation.

(** ** Rejected payloads *)

Section Rejection.
Context (env : Env) (caller : ObjectId) (store : Store).

Lemma createTask_rejects b e :
  e ∈ (validateTask (clock env) b).2 →
  createTask env caller b store = (RespValidation (validateTask (clock env) b).2, store).
Proof.
  unfold createTask. destruct (validateTask (clock env) b) as [b' errors]; simpl.
  destruct errors; [by intros ?%elem_of_nil | done].
Qed.

Lemma updateTask_rejects id b e :
  e ∈ (validateTask (clock env) b).2 →
  updateTask env caller id b store
  = (RespValidation (validateTask (clock env) b).2, store).
Proof.
  unfold updateTask. destruct (validateTask (clock env) b) as [b' errors]; simpl.
  destruct errors; [by intros ?%elem_of_nil | done].
Qed.

Lemma createTask_accepts b :
  (validateTask (clock env) b).2 = [] →
  createTask env caller b store =
    match newTask (clock env) caller (validateTask (clock env) b).1 with
    | None => (RespServerError, store)
    | Some task =>
        if schemaValid (clock env) task then
          match store !! nextId env with
          | Some _ => (RespServerError, store)
          | None => (RespCreated (nextId env) task, <[nextId env := task]> store)
          end
        else (RespServerError, store)
    end.
Proof.
  unfold createTask. destruct (validateTask (clock env) b) as [b' errors]; simpl.
  by intros ->.
Qed.

Lemma updateTask_accepts id b :
  (validateTask (clock env) b).2 = [] →
  updateTask env caller id b store =
    let b' := (validateTask (clock env) b).1 in
    match castObjectId id with
    | None => (RespServerError, store)
    | Some oid =>
        match findOne oid caller store with
        | None => (RespNotFound, store)
        | Some task =>
            match assign b' task with
            | None => (RespServerError, store)
            | Some task1 =>
                let task2 :=
                  if bool_decide (Body.status b' = Some "Completed")
                     && negb (String.eqb (status task1) "Completed")
                  then setCompletedAt (clock env) task1
                  else task1 in
                if schemaValid (clock env) task2
                then (RespTask oid task2, <[oid := task2]> store)
                else (RespServerError, store)
            end
        end
    end.
Proof.
  unfold updateTask. destruct (validateTask (clock env) b) as [b' errors]; simpl.
  by intros ->.
Qed.

End Rejection.

Section Omissions.
Context (now : Z) (b : Body.t).

Lemma title_omitted :
  Body.title b = None →
  mkError "title" "Title is required" ∈ (validateTask now b).2.
Proof.
  intros H. rewrite validateTask_errors, H, absent_title_error.
  apply list_elem_of_here.
Qed.

Lemma category_omitted :
  Body.category b = None →
  mkError "category" "Invalid category" ∈ (validateTask now b).2.
Proof.
  intros H. rewrite validateTask_errors, H, !elem_of_app.
  right; right; left. apply list_elem_of_here.
Qed.

Lemma priority_omitted :
  Body.priority b = None →
  mkError "priority" "Invalid priority level" ∈ (validateTask now b).2.
Proof.
  intros H. rewrite validateTask_errors, H, !elem_of_app.
  do 3 right; left. apply list_elem_of_here.
Qed.

Lemma dueDate_not_future d t :
  Body.dueDate b = Some d → getTime d = Some t → t ≤ now →
  mkError "dueDate" "Due date must be in the future" ∈ (validateTask now b).2.
Proof.
  intros H Ht Hle. rewrite validateTask_errors, H, !elem_of_app.
  do 5 right; left. simpl. rewrite elem_of_app. right.
  unfold notInFuture. rewrite Ht.
  replace (t <=? now) with true by (symmetry; by apply Z.leb_le).
  apply list_elem_of_here.
Qed.

Lemma reminder_not_future d t :
  Body.reminder b = Some d → getTime d = Some t → t ≤ now →
  mkError "reminder" "Reminder must be in the future" ∈ (validateTask now b).2.
Proof.
  intros H Ht Hle. rewrite validateTask_errors, H, !elem_of_app.
  do 6 right. simpl. rewrite elem_of_app. right.
  unfold notInFuture. rewrite Ht.
  replace (t <=? now) with true by (symmetry; by apply Z.leb_le).
  apply list_elem_of_here.
Qed.

End Omissions.

(** ** Create *)

Section Create.
Context (env : Env) (caller : ObjectId).

Lemma isIn_toString_default v options d :
  isIn (toString v) options = true → isIn "" options = false →
  default d v = toString v.
Proof. destruct v; simpl; [done|]. congruence. Qed.

Lemma castDate_readable value :
  (∀ v, value = Some v → is_Some (getTime v)) →
  castDate value = Some (value ≫= getTime).
Proof.
  destruct value as [v|]; simpl; intros H; [|done].
  destruct (H v eq_refl) as [t Ht]. by rewrite Ht.
Qed.

Lemma accepted_future now value :
  (∀ v, value = Some v → isISO8601 v = true ∧ notInFuture now v = false) →
  futureOrUnset now (value ≫= getTime) = true.
Proof.
  intros Hacc. destruct value as [v|]; simpl; [|done].
  destruct (Hacc v eq_refl) as [_ Hf].
  unfold notInFuture in Hf. destruct (getTime v) as [t|]; simpl; [|done].
  apply Z.ltb_lt. apply Z.leb_gt in Hf. lia.
Qed.

(** A payload without errors whose dates [Date] can read builds a
    document that the schema accepts. *)
Lemma newTask_accepted b :
  Accepted (clock env) b →
  (∀ v, Body.dueDate b = Some v → is_Some (getTime v)) →
  (∀ v, Body.reminder b = Some v → is_Some (getTime v)) →
  ∃ t, newTask (clock env) caller (validateTask (clock env) b).1 = Some t
       ∧ schemaValid (clock env) t = true
       ∧ user t = caller
       ∧ title t = trim (toString (Body.title b))
       ∧ category t = toString (Body.category b)
       ∧ priority t = toString (Body.priority b)
       ∧ status t = default "Pending" (Body.status b)
       ∧ order t = default 0 (Body.order b).
Proof.
  intros [] Hd Hr. rewrite validateTask_body. unfold newTask; simpl.
  rewrite (castDate_readable _ Hd), (castDate_readable _ Hr). simpl.
  eexists. split; [reflexivity|]. simpl.
  rewrite !trim_idem.
  rewrite (isIn_toString_default (Body.category b) categories "Personal") by done.
  rewrite (isIn_toString_default (Body.priority b) priorities "Medium") by done.
  split; [|done].
  unfold schemaValid; simpl.
  repeat (apply andb_true_intro; split); try done.
  - apply negb_true_iff, String.eqb_neq. done.
  - destruct (Body.description b) as [d|]; simpl; [|done].
    rewrite trim_idem. by apply acc_description0.
  - destruct (Body.status b) as [v|]; [by apply acc_status0 | done].
  - by apply accepted_future.
  - by apply accepted_future.
Qed.

End Create.

(** C7. A Create payload that passes validation, with dates that [Date]
    reads and a fresh identifier, is answered with the new task: its owner is
    the caller, and its status is Pending when the payload has none. *)
Theorem create_owner_and_default_status env caller b store :
  (validateTask (clock env) b).2 = [] →
  (∀ v, Body.dueDate b = Some v → is_Some (getTime v)) →
  (∀ v, Body.reminder b = Some v → is_Some (getTime v)) →
  store !! nextId env = None →
  ∃ t, createTask env caller b store
       = (RespCreated (nextId env) t, <[nextId env := t]> store)
       ∧ user t = caller
       ∧ (Body.status b = None → status t = "Pending").
Proof.
  intros Hv Hd Hr Hfresh.
  destruct (newTask_accepted env caller b (validateTask_accepted _ _ Hv) Hd Hr)
    as (t & Hnew & Hvalid & Huser & _ & _ & _ & Hstatus & _).
  exists t. rewrite createTask_accepts, Hnew, Hvalid, Hfresh by done.
  split; [done|]. split; [done|]. intros E. by rewrite Hstatus, E.
Qed.

Lemma create_owner_and_default_status_witness :
  ∃ t, createTask noon u1 buyMilk ∅ = (RespCreated 1%N t, <[1%N := t]> ∅)
       ∧ user t = u1
       ∧ (Body.status buyMilk = None → status t = "Pending").
Proof.
  apply (create_owner_and_default_status noon u1 buyMilk ∅);
    [reflexivity | discriminate | discriminate | reflexivity].
Defined.

(** The example of the specification: the new task is Pending, at order 0. *)
Example create_buy_milk :
  createTask noon u1 buyMilk ∅ = (RespCreated 1%N milk, {[1%N := milk]}).
Proof. reflexivity. Qed.

(** A Create without a category, and one without a priority, are answered
    with the validation error of that field, and no task is created. *)
Lemma create_without_category_rejected :
  createTask noon u1 withoutCategory ∅
  = (RespValidation [mkError "category" "Invalid category"], ∅)
  ∧ createTask noon u1 withoutPriority ∅
    = (RespValidation [mkError "priority" "Invalid priority level"], ∅)
  ∧ ¬ (∃ id t, (createTask noon u1 withoutCategory ∅).1 = RespCreated id t)
  ∧ ¬ (∃ id t, (createTask noon u1 withoutPriority ∅).1 = RespCreated id t).
Proof.
  split; [reflexivity|]. split; [reflexivity|].
  split; intros (id & t & H); discriminate H.
Qed.

(** C6, amended. A Create payload that omits category is rejected with the
    error 'Invalid category', and one that omits priority with 'Invalid
    priority level'; no task is created.  The defaults Personal and Medium
    are those of a document built without these fields. *)
Theorem create_requires_category_and_priority env caller b store :
  (Body.category b = None →
     ∃ errs, createTask env caller b store = (RespValidation errs, store)
             ∧ mkError "category" "Invalid category" ∈ errs)
  ∧ (Body.priority b = None →
       ∃ errs, createTask env caller b store = (RespValidation errs, store)
               ∧ mkError "priority" "Invalid priority level" ∈ errs)
  ∧ (∀ t, newTask (clock env) caller b = Some t →
       (Body.category b = None → category t = "Personal")
       ∧ (Body.priority b = None → priority t = "Medium")).
Proof.
  split; [|split].
  - intros H%(category_omitted (clock env)). eauto using createTask_rejects.
  - intros H%(priority_omitted (clock env)). eauto using createTask_rejects.
  - intros t. unfold newTask.
    destruct (castDate (Body.dueDate b)); simpl; [|done].
    destruct (castDate (Body.reminder b)); simpl; [|done].
    intros [= <-]; simpl. by split; intros ->.
Qed.

Lemma create_requires_category_and_priority_witness :
  (∃ errs, createTask noon u1 withoutCategory ∅ = (RespValidation errs, ∅)
           ∧ mkError "category" "Invalid category" ∈ errs)
  ∧ (∃ errs, createTask noon u1 withoutPriority ∅ = (RespValidation errs, ∅)
             ∧ mkError "priority" "Invalid priority level" ∈ errs)
  ∧ (∃ t, newTask (clock noon) u1 Body.empty = Some t
          ∧ category t = "Personal" ∧ priority t = "Medium").
Proof.
  split; [|split].
  - exact (proj1 (create_requires_category_and_priority noon u1 withoutCategory ∅)
             eq_refl).
  - exact (proj1 (proj2 (create_requires_category_and_priority noon u1 withoutPriority ∅))
             eq_refl).
  - eexists. split; [reflexivity|].
    destruct (proj2 (proj2 (create_requires_category_and_priority noon u1 Body.empty ∅))
                _ eq_refl) as [Hc Hp].
    split; [exact (Hc eq_refl) | exact (Hp eq_refl)].
Defined.

(** An Update that supplies a valid status and nothing else, on a task of
    the caller, is answered with the errors of the three omitted fields. *)
Lemma update_status_only_rejected :
  findOne 1%N u1 {[1%N := milk]} = Some milk
  ∧ validateOptionalEnum "status" "Invalid status" statuses (Body.status statusOnly) = []
  ∧ updateTask noon u1 firstId statusOnly {[1%N := milk]}
    = (RespValidation [mkError "title" "Title is required";
                       mkError "category" "Invalid category";
                       mkError "priority" "Invalid priority level"],
       {[1%N := milk]})
  ∧ ¬ (∃ id t, (updateTask noon u1 firstId statusOnly {[1%N := milk]}).1 = RespTask id t).
Proof.
  split; [reflexivity|]. split; [reflexivity|]. split; [reflexivity|].
  intros (id & t & H); discriminate H.
Qed.

(** C2, amended. An Update payload is validated by the chains of Create,
    on the payload alone: when it omits title, category or priority the
    answer is a validation error that lists each omitted field, whatever the
    stored record holds, and nothing is modified; an Update that is applied
    has a payload without errors. *)
Theorem update_validates_whole_payload env caller id b store :
  (Body.title b = None ∨ Body.category b = None ∨ Body.priority b = None →
     updateTask env caller id b store
     = (RespValidation (validateTask (clock env) b).2, store)
     ∧ createTask env caller b store
       = (RespValidation (validateTask (clock env) b).2, store)
     ∧ (Body.title b = None →
          mkError "title" "Title is required" ∈ (validateTask (clock env) b).2)
     ∧ (Body.category b = None →
          mkError "category" "Invalid category" ∈ (validateTask (clock env) b).2)
     ∧ (Body.priority b = None →
          mkError "priority" "Invalid priority level" ∈ (validateTask (clock env) b).2))
  ∧ (∀ oid t, (updateTask env caller id b store).1 = RespTask oid t →
       (validateTask (clock env) b).2 = []).
Proof.
  split.
  - intros H.
    assert (∃ e, e ∈ (validateTask (clock env) b).2) as [e He].
    { destruct H as [H|[H|H]];
        eauto using title_omitted, category_omitted, priority_omitted. }
    rewrite (updateTask_rejects _ _ _ _ _ _ He), (createTask_rejects _ _ _ _ _ He).
    split_and!; [done | done | apply title_omitted | apply category_omitted
                | apply priority_omitted].
  - intros oid t. destruct ((validateTask (clock env) b).2) as [|e errs] eqn:E; [done|].
    rewrite (updateTask_rejects env caller store id b e) by (rewrite E; left).
    discriminate.
Qed.

Lemma update_validates_whole_payload_witness :
  updateTask noon u1 firstId statusOnly {[1%N := milk]}
  = (RespValidation (validateTask (clock noon) statusOnly).2, {[1%N := milk]})
  ∧ mkError "title" "Title is required" ∈ (validateTask (clock noon) statusOnly).2.
Proof.
  destruct (proj1 (update_validates_whole_payload noon u1 firstId statusOnly
                     {[1%N := milk]}) (or_introl eq_refl)) as (Hu & _ & Ht & _).
  split; [exact Hu | exact (Ht eq_refl)].
Defined.

(** C8. A Create or an Update whose dueDate (or reminder) is an instant
    not after the current time is answered with a validation error that
    lists that field, and the collection is left as it was. *)
Theorem past_date_rejected env caller id b store field d t :
  (field = "dueDate" ∧ Body.dueDate b = Some d)
  ∨ (field = "reminder" ∧ Body.reminder b = Some d) →
  getTime d = Some t → t ≤ clock env →
  ∃ errs e, e ∈ errs ∧ path e = field
    ∧ createTask env caller b store = (RespValidation errs, store)
    ∧ updateTask env caller id b store = (RespValidation errs, store).
Proof.
  intros [[-> H]|[-> H]] Ht Hle.
  - pose proof (dueDate_not_future _ _ _ _ H Ht Hle) as He.
    eauto 10 using createTask_rejects, updateTask_rejects.
  - pose proof (reminder_not_future _ _ _ _ H Ht Hle) as He.
    eauto 10 using createTask_rejects, updateTask_rejects.
Qed.

Lemma past_date_rejected_witness :
  ∃ errs e, e ∈ errs ∧ path e = "dueDate"
    ∧ createTask noon u1 dueYesterday ∅ = (RespValidation errs, ∅)
    ∧ updateTask noon u1 firstId dueYesterday ∅ = (RespValidation errs, ∅).
Proof.
  apply (past_date_rejected noon u1 firstId dueYesterday ∅ "dueDate" yesterday
           1715256000000);
    [left; split; reflexivity | reflexivity | vm_compute; discriminate].
Defined.

Example create_due_yesterday :
  createTask noon u1 dueYesterday ∅
  = (RespValidation [mkError "dueDate" "Due date must be in the future"], ∅).
Proof. reflexivity. Qed.

(** ** Update *)

Section Update.
Context (env : Env) (caller : ObjectId) (store : Store).

Lemma findOne_Some oid owner (st : Store) t :
  findOne oid owner st = Some t ↔ st !! oid = Some t ∧ user t = owner.
Proof.
  unfold findOne. destruct (st !! oid) as [t'|]; simpl.
  - case_decide; split; intros; destruct_and?; simplify_eq; done.
  - split; intros; destruct_and?; simplify_eq.
Qed.

Lemma findOne_None oid owner (st : Store) :
  findOne oid owner st = None ↔
  st !! oid = None ∨ ∃ t, st !! oid = Some t ∧ user t ≠ owner.
Proof.
  unfold findOne. destruct (st !! oid) as [t'|]; simpl.
  - case_decide; split.
    + discriminate.
    + intros [|(t & [= <-] & ?)]; done.
    + eauto.
    + done.
  - split; [by left | done].
Qed.

Lemma assign_fields b t t1 :
  assign b t = Some t1 →
  status t1 = default (status t) (Body.status b)
  ∧ completedAt t1 = from_option Some (completedAt t) (Body.completedAt b)
  ∧ Some (user t1) = from_option castObjectId (Some (user t)) (Body.user b)
  ∧ order t1 = default (order t) (Body.order b).
Proof.
  unfold assign. intros H.
  repeat match type of H with
         | mbind _ ?m = Some _ => destruct m eqn:?; simpl in H; [|discriminate H]
         end.
  injection H as <-; simpl. split_and!; try done.
Qed.

(** The test that guards the stamp reads the status that the merge loop
    has just written, so it never holds. *)
Lemma stamp_never_fires b t t1 :
  assign b t = Some t1 →
  bool_decide (Body.status b = Some "Completed")
  && negb (String.eqb (status t1) "Completed") = false.
Proof.
  intros (Hs & _)%assign_fields. case_bool_decide as E; [|done].
  rewrite Hs, E. reflexivity.
Qed.

(** What an Update that is applied has done: the document it answers
    with is the stored one after the merge loop, and nothing more. *)
Lemma updateTask_applied id b oid t' :
  (updateTask env caller id b store).1 = RespTask oid t' →
  castObjectId id = Some oid
  ∧ ∃ t, findOne oid caller store = Some t
         ∧ assign (validateTask (clock env) b).1 t = Some t'
         ∧ updateTask env caller id b store = (RespTask oid t', <[oid := t']> store).
Proof.
  destruct ((validateTask (clock env) b).2) as [|e errs] eqn:E.
  - rewrite updateTask_accepts by done. cbv zeta.
    destruct (castObjectId id) as [oid'|]; [|done].
    destruct (findOne oid' caller store) as [t|] eqn:Hf; [|done].
    destruct (assign _ t) as [t1|] eqn:Ha; [|done].
    rewrite (stamp_never_fires _ _ _ Ha).
    destruct (schemaValid (clock env) t1); [|done].
    simpl. intros [= <- <-]. eauto.
  - rewrite (updateTask_rejects env caller store id b e) by (rewrite E; left).
    discriminate.
Qed.

(** No Update stamps [completedAt]: the answer carries the stored value,
    or the one that the payload itself supplies. *)
Lemma updateTask_completedAt id b oid t' :
  (updateTask env caller id b store).1 = RespTask oid t' →
  ∃ t, findOne oid caller store = Some t
       ∧ completedAt t' = from_option Some (completedAt t) (Body.completedAt b).
Proof.
  intros (_ & t & Hf & Ha & _)%updateTask_applied. exists t. split; [done|].
  apply assign_fields in Ha as (_ & -> & _). by rewrite validateTask_body.
Qed.

(** An Update whose payload has no [user] leaves the owner as it is. *)
Lemma updateTask_keeps_owner id b oid t' :
  Body.user b = None →
  (updateTask env caller id b store).1 = RespTask oid t' → user t' = caller.
Proof.
  intros Hu (_ & t & Hf & Ha & _)%updateTask_applied.
  apply assign_fields in Ha as (_ & _ & Ho & _).
  rewrite validateTask_body in Ho; simpl in Ho. rewrite Hu in Ho; simpl in Ho.
  apply findOne_Some in Hf as [_ <-]. congruence.
Qed.

End Update.

(** C1. On a Pending task of the caller, an Update with a valid payload
    that sets the status to Completed is applied, and the task it answers
    with and stores is Completed with no [completedAt]. *)
Theorem update_to_completed_leaves_completedAt_unset :
  status milk = "Pending"
  ∧ ∃ t, updateTask noon u1 firstId completeMilk {[1%N := milk]}
         = (RespTask 1%N t, {[1%N := t]})
         ∧ status t = "Completed"
         ∧ completedAt t = None.
Proof. split; [reflexivity|]. eexists. split; [reflexivity|]. split; reflexivity. Qed.

(** C5. An Update of the caller's task whose payload names another
    principal as [user] is applied: the task is then owned by that
    principal, and its former owner no longer finds it. *)
Theorem update_with_user_changes_owner :
  findOne 1%N u1 {[1%N := milk]} = Some milk
  ∧ ∃ t st, updateTask noon u1 firstId giveAway {[1%N := milk]} = (RespTask 1%N t, st)
            ∧ user t = u2
            ∧ findOne 1%N u1 st = None
            ∧ findOne 1%N u2 st = Some t.
Proof.
  split; [reflexivity|]. do 2 eexists. split; [reflexivity|].
  split; [reflexivity|]. split; reflexivity.
Qed.

(** Create, the sibling path, ignores the [user] of its payload. *)
Lemma createTask_owner env caller b store id t :
  (createTask env caller b store).1 = RespCreated id t → user t = caller.
Proof.
  unfold createTask. destruct (validateTask (clock env) b) as [b' errors].
  destruct errors; [|done].
  unfold newTask.
  destruct (castDate (Body.dueDate b')); simpl; [|done].
  destruct (castDate (Body.reminder b')); simpl; [|done].
  match goal with |- context [schemaValid ?n ?t] => destruct (schemaValid n t) end;
    [|done].
  destruct (store !! nextId env); [done|]. simpl. by intros [= _ <-].
Qed.

(** ** Reorder *)

Section Reorder.
Context (caller : ObjectId) (store : Store).

Lemma sameButOrder_refl t : sameButOrder t t.
Proof. done. Qed.

Lemma sameButOrder_setOrder t t' v : sameButOrder t t' → sameButOrder t (setOrder v t').
Proof. intros H w. rewrite <- (H w). reflexivity. Qed.

Lemma sameButOrder_user t t' : sameButOrder t t' → user t' = user t.
Proof. intros H. exact (f_equal user (H 0)). Qed.

Lemma updateOne_other st id x i : id ≠ x → updateOne caller st (x, i) !! id = st !! id.
Proof.
  intros Hne. unfold updateOne; simpl. destruct (findOne x caller st); [|done].
  by rewrite lookup_insert_ne.
Qed.

Lemma updateOne_same st x i :
  updateOne caller st (x, i) !! x =
    match st !! x with
    | Some t => if decide (user t = caller) then Some (setOrder i t) else Some t
    | None => None
    end.
Proof.
  unfold updateOne, findOne; simpl. destruct (st !! x) as [t|] eqn:E; simpl.
  - case_decide; [by rewrite lookup_insert_eq | done].
  - done.
Qed.

Lemma bulkOps_snoc items x :
  bulkOps (items ++ [x]) = bulkOps items ++ [(x, Z.of_nat (length items))].
Proof. unfold bulkOps. rewrite imap_app. simpl. by rewrite Nat.add_0_r. Qed.

Lemma bulkWrite_reordered items :
  Reordered caller store items (bulkWrite caller (bulkOps items) store).
Proof.
  induction items as [|x items IH] using rev_ind.
  - split; simpl.
    + done.
    + eauto using sameButOrder_refl.
    + done.
    + done.
    + intros ??? _ _ H. by rewrite lookup_nil in H.
  - rewrite bulkOps_snoc. unfold bulkWrite in *. rewrite foldl_snoc.
    set (st := foldl (updateOne caller) store (bulkOps items)) in *.
    destruct IH as [Habs Hkept Hfor Hunn Hpos].
    split.
    + intros id Hid. destruct (decide (id = x)) as [->|Hne].
      * by rewrite updateOne_same, (Habs _ Hid).
      * rewrite updateOne_other by done. auto.
    + intros id t Hid. destruct (Hkept _ _ Hid) as (t' & Ht' & Hsame).
      destruct (decide (id = x)) as [->|Hne].
      * rewrite updateOne_same, Ht'. case_decide; eauto using sameButOrder_setOrder.
      * rewrite updateOne_other by done. eauto.
    + intros id t Hid Hu. destruct (decide (id = x)) as [->|Hne].
      * rewrite updateOne_same, (Hfor _ _ Hid Hu). by rewrite decide_False.
      * rewrite updateOne_other by done. auto.
    + intros id Hid. rewrite elem_of_app, list_elem_of_singleton in Hid.
      rewrite updateOne_other by tauto. apply Hunn. tauto.
    + intros id t i Hid Hu Hi Hlast. destruct (decide (id = x)) as [->|Hne].
      * assert (i = length items) as ->.
        { destruct (decide (i < length items)%nat) as [Hlt|Hge].
          - exfalso. apply (Hlast (length items) Hlt).
            by rewrite lookup_app_r, Nat.sub_diag by lia.
          - apply lookup_lt_Some in Hi. rewrite length_app in Hi. simpl in Hi. lia. }
        destruct (Hkept _ _ Hid) as (t' & Ht' & Hsame).
        rewrite updateOne_same, Ht'.
        rewrite decide_True by (by rewrite (sameButOrder_user _ _ Hsame)).
        by rewrite Hsame.
      * rewrite updateOne_other by done.
        assert (i < length items)%nat as Hlt.
        { destruct (decide (i < length items)%nat) as [|Hge]; [done|].
          rewrite lookup_app_r in Hi by lia.
          destruct (i - length items)%nat; simpl in Hi; [congruence|].
          by rewrite lookup_nil in Hi. }
        rewrite lookup_app_l in Hi by done.
        apply (Hpos id t i); auto.
        intros j Hj Hjx. apply (Hlast j Hj).
        rewrite lookup_app_l; [done|]. by apply lookup_lt_Some in Hjx.
Qed.

End Reorder.




(** The example of the specification: [Reorder([t3, t1, t2])], with a task
    of another principal added to the list. *)
Example reorder_three_one_two :
  reorderTasks u1 (TasksArray [3%N; 1%N; 2%N; 4%N]) fourTasks
  = (RespMessage "Tasks reordered successfully",
     <[1%N := plain u1 "one" 1]> (<[2%N := plain u1 "two" 2]>
       (<[3%N := plain u1 "three" 0]> {[4%N := plain u2 "four" 8]}))).
Proof. reflexivity. Qed.

(** In a sequence without repetition a position is the last mention. *)
Lemma NoDup_last_mention (items : list ObjectId) i id :
  NoDup items → items !! i = Some id → ∀ j, (i < j)%nat → items !! j ≠ Some id.
Proof.
  intros Hnd Hi j Hj Hjx.
  pose proof (NoDup_lookup _ _ _ _ Hnd Hi Hjx). lia.
Qed.

(** ** The router *)

(** The route table read for one method: the routes of other methods are
    skipped. *)
Ltac route :=
  unfold routes, dispatch;
  repeat first [rewrite decide_True by done | rewrite decide_False by done];
  cbn -[String.eqb not].

Lemma dispatch_GET segs h params :
  dispatch routes GET segs = Some (h, params) →
  h = HList ∨ h = HByCategory ∨ h = HByDueDate.
Proof.
  route. destruct segs as [|x [|y [|z segs]]]; cbn -[String.eqb].
  - intros [= <- <-]; auto.
  - destruct (String.eqb "category" x), (String.eqb "due" x); discriminate.
  - destruct (String.eqb "category" x); cbn -[String.eqb].
    + destruct (String.eqb y ""); cbn -[String.eqb]; [|intros [= <- <-]; auto].
      destruct (String.eqb "due" x); discriminate.
    + destruct (String.eqb "due" x); cbn -[String.eqb]; [|discriminate].
      destruct (String.eqb y ""); cbn -[String.eqb]; [discriminate|].
      intros [= <- <-]; auto.
  - destruct (String.eqb "category" x); cbn -[String.eqb].
    + destruct (String.eqb y ""); cbn -[String.eqb];
        destruct (String.eqb "due" x); cbn -[String.eqb];
        try destruct (String.eqb y ""); discriminate.
    + destruct (String.eqb "due" x); cbn -[String.eqb]; [|discriminate].
      destruct (String.eqb y ""); discriminate.
Qed.

(** No request is dispatched to the Reorder handler: whatever its pattern
    matches, the pattern [/:id] registered before it matches too. *)
Lemma reorder_unreachable m segs params :
  dispatch routes m segs ≠ Some (HReorder, params).
Proof.
  destruct m.
  - intros H. destruct (dispatch_GET _ _ _ H) as [? | [? | ?]]; discriminate.
  - route. destruct segs; discriminate.
  - route. destruct segs as [|x [|y segs]]; [discriminate | |].
    + destruct (String.eqb_spec x "") as [-> | _]; done.
    + destruct (String.eqb x ""), (String.eqb "reorder" x); discriminate.
  - route. destruct segs as [|x [|y segs]]; [discriminate | |];
      destruct (String.eqb x ""); discriminate.
Qed.

(** C4. A PUT whose path is [/reorder] is dispatched to the Update
    handler with [id = 'reorder'], not to the Reorder handler: the answer is
    that of Update, a validation error or a server error, and the collection
    is left as it was. *)
Theorem put_reorder_runs_update env req store :
  method req = PUT → segments req = ["reorder"] →
  dispatch routes (method req) (segments req) = Some (HUpdate, [("id", "reorder")])
  ∧ handle env req store = updateTask env (caller req) "reorder" (body req) store
  ∧ handle env req store ≠ reorderTasks (caller req) (tasks req) store
  ∧ (handle env req store).2 = store
  ∧ ((handle env req store).1 = RespValidation (validateTask (clock env) (body req)).2
     ∨ (handle env req store).1 = RespServerError).
Proof.
  intros Hm Hs. unfold handle. rewrite Hm, Hs.
  change (dispatch routes PUT ["reorder"]) with (Some (HUpdate, [("id", "reorder")])).
  cbv beta iota.
  change (param "id" [("id", "reorder")]) with "reorder".
  assert (updateTask env (caller req) "reorder" (body req) store
          = (RespValidation (validateTask (clock env) (body req)).2, store)
          ∨ updateTask env (caller req) "reorder" (body req) store
            = (RespServerError, store)) as Hcases.
  { destruct ((validateTask (clock env) (body req)).2) as [|e errs] eqn:E.
    - right. by rewrite updateTask_accepts.
    - left. rewrite <- E. apply (updateTask_rejects _ _ _ _ _ e). rewrite E. left. }
  split; [done|]. split; [done|].
  split; [|destruct Hcases as [-> | ->]; auto].
  destruct Hcases as [-> | ->]; destruct (tasks req); simpl; discriminate.
Qed.

Lemma put_reorder_runs_update_witness :
  handle noon (mkRequest PUT ["reorder"] u1 Query.empty Body.empty
                 (TasksArray [3%N; 1%N; 2%N])) fourTasks
  = updateTask noon u1 "reorder" Body.empty fourTasks.
Proof.
  exact (proj1 (proj2 (put_reorder_runs_update noon
    (mkRequest PUT ["reorder"] u1 Query.empty Body.empty (TasksArray [3%N; 1%N; 2%N]))
    fourTasks eq_refl eq_refl))).
Defined.

(** The reorder request of a client: it is answered with the validation
    errors of an empty task payload, and no order changes. *)
Example put_reorder_answer :
  handle noon (mkRequest PUT ["reorder"] u1 Query.empty Body.empty
                 (TasksArray [3%N; 1%N; 2%N])) fourTasks
  = (RespValidation [mkError "title" "Title is required";
                     mkError "category" "Invalid category";
                     mkError "priority" "Invalid priority level"], fourTasks).
Proof. reflexivity. Qed.

(** ** List *)

#[global] Instance byOrder_total : Total byOrder.
Proof. intros a b. unfold byOrder. lia. Qed.

#[global] Instance byOrder_trans : Transitive byOrder.
Proof. intros a b c. unfold byOrder. lia. Qed.

Section List.
Context (env : Env) (caller : ObjectId) (store : Store).

Lemma eqField_spec wanted actual :
  eqField wanted actual = true ↔ ∀ v, wanted = Some v → actual = v.
Proof.
  destruct wanted as [w|]; simpl.
  - rewrite String.eqb_eq. split; [by intros -> ? [= <-] |].
    intros H. symmetry. by apply H.
  - split; [by intros _ ? [=] | done].
Qed.

Lemma inRange_spec wanted actual :
  inRange wanted actual = true ↔
  ∀ lo hi, wanted = Some (lo, hi) → ∃ v, actual = Some v ∧ lo ≤ v ≤ hi.
Proof.
  destruct wanted as [[lo hi]|], actual as [v|]; simpl.
  - rewrite andb_true_iff, !Z.leb_le. split.
    + intros H ?? [= <- <-]. eauto.
    + intros H. destruct (H lo hi eq_refl) as (? & [= <-] & ?). lia.
  - split; [done|]. intros H. by destruct (H lo hi eq_refl) as (? & [=] & _).
  - split; [by intros _ ?? [=] | done].
  - split; [by intros _ ?? [=] | done].
Qed.

Lemma matches_spec f id t :
  matches f (id, t) = true ↔
  user t = Filter.user f
  ∧ (∀ v, Filter.category f = Some v → category t = v)
  ∧ (∀ v, Filter.status f = Some v → status t = v)
  ∧ (∀ v, Filter.priority f = Some v → priority t = v)
  ∧ (∀ lo hi, Filter.dueDate f = Some (lo, hi) →
       ∃ v, dueDate t = Some v ∧ lo ≤ v ≤ hi).
Proof.
  unfold matches; simpl.
  rewrite !andb_true_iff, bool_decide_eq_true, !eqField_spec, inRange_spec.
  tauto.
Qed.

Lemma elem_of_find f id t :
  (id, t) ∈ find f store ↔ store !! id = Some t ∧ matches f (id, t) = true.
Proof.
  unfold find. rewrite list_elem_of_filter, elem_of_map_to_list, Is_true_true. tauto.
Qed.

Lemma elem_of_sortByOrder d docs : d ∈ sortByOrder docs ↔ d ∈ docs.
Proof. unfold sortByOrder. by rewrite merge_sort_Permutation. Qed.

Lemma sortByOrder_sorted docs : StronglySorted byOrder (sortByOrder docs).
Proof. apply StronglySorted_merge_sort; apply _. Qed.

Lemma sortByOrder_NoDup docs : NoDup docs → NoDup (sortByOrder docs).
Proof. unfold sortByOrder. by rewrite merge_sort_Permutation. Qed.

(** The tasks that List answers with: those of the collection that the
    caller owns and that agree with every filter of the query, each once,
    by ascending [order]. *)
Lemma listTasks_exact q docs :
  listTasks env caller q store = RespTasks docs →
  StronglySorted byOrder docs
  ∧ NoDup docs
  ∧ ∀ id t, (id, t) ∈ docs ↔
      store !! id = Some t
      ∧ user t = caller
      ∧ (∀ v, truthy (Query.category q) = Some v → category t = v)
      ∧ (∀ v, truthy (Query.status q) = Some v → status t = v)
      ∧ (∀ v, truthy (Query.priority q) = Some v → priority t = v)
      ∧ (∀ text, truthy (Query.dueDate q) = Some text →
           ∃ lo hi v, dayRange env text = Some (lo, hi)
                      ∧ dueDate t = Some v ∧ lo ≤ v ≤ hi).
Proof.
  unfold listTasks.
  destruct (truthy (Query.dueDate q)) as [text|] eqn:Ed.
  - destruct (dayRange env text) as [[lo hi]|] eqn:Er; simpl; [|done].
    intros [= <-]. split; [apply sortByOrder_sorted|].
    split; [apply sortByOrder_NoDup, NoDup_filter, NoDup_map_to_list|].
    intros id t. rewrite elem_of_sortByOrder, elem_of_find, matches_spec; simpl.
    split.
    + intros (? & ? & ? & ? & ? & H). split_and!; try done.
      intros ? [= <-]. destruct (H lo hi eq_refl) as (v & ? & ?). eauto 6.
    + intros (? & ? & ? & ? & ? & H). split_and!; try done.
      intros ?? [= <- <-]. destruct (H text eq_refl) as (lo' & hi' & v & Hr & ?).
      rewrite Er in Hr. injection Hr as <- <-. eauto.
  - intros [= <-]. split; [apply sortByOrder_sorted|].
    split; [apply sortByOrder_NoDup, NoDup_filter, NoDup_map_to_list|].
    intros id t. rewrite elem_of_sortByOrder, elem_of_find, matches_spec; simpl.
    split.
    + intros (? & ? & ? & ? & ? & H). split_and!; done.
    + intros (? & ? & ? & ? & ? & H). split_and!; done.
Qed.

(** List answers with tasks, an empty sequence included, unless the query
    carries a date that [Date] cannot read. *)
Lemma listTasks_answers q :
  (∀ text, truthy (Query.dueDate q) = Some text → is_Some (newDate env text)) →
  ∃ docs, listTasks env caller q store = RespTasks docs.
Proof.
  intros H. unfold listTasks, dayRange.
  destruct (truthy (Query.dueDate q)) as [text|]; [|eauto].
  destruct (H text eq_refl) as [t ->]. simpl. eauto.
Qed.

End List.

Lemma listTasks_empty env caller q docs :
  listTasks env caller q ∅ = RespTasks docs → docs = [].
Proof.
  intros (_ & _ & H)%listTasks_exact. destruct docs as [|[id t] docs]; [done|].
  destruct (proj1 (H id t)) as [E _]; [left|]. by rewrite lookup_empty in E.
Qed.

(** ** The day of a date filter *)

Section DayRange.
Context (env : Env).

(** The range of a date filter is the local calendar day that contains
    the instant which [Date] reads from the text. *)
Lemma dayRange_local_day text t :
  newDate env text = Some t →
  dayRange env text
  = Some (localMidnight (tzOffset env) ((t + tzOffset env) / msPerDay),
          localMidnight (tzOffset env) ((t + tzOffset env) / msPerDay) + 86399999).
Proof.
  intros H. unfold dayRange. rewrite H. simpl.
  unfold setHours, localMidnight. do 2 f_equal; lia.
Qed.

Lemma newDate_dateOnly text y m d :
  parseDateOnly text = Some (y, m, d) →
  newDate env text = Some (daysFromCivil y m d * msPerDay).
Proof. intros H. unfold newDate. by rewrite H. Qed.

(** At or east of UTC a date-only text selects the local day it names. *)
Lemma dayRange_east text y m d :
  parseDateOnly text = Some (y, m, d) →
  0 ≤ tzOffset env < msPerDay →
  dayRange env text
  = Some (localMidnight (tzOffset env) (daysFromCivil y m d),
          localMidnight (tzOffset env) (daysFromCivil y m d) + 86399999).
Proof.
  intros H Htz. rewrite (dayRange_local_day _ _ (newDate_dateOnly _ _ _ _ H)).
  replace ((daysFromCivil y m d * msPerDay + tzOffset env) / msPerDay)
    with (daysFromCivil y m d); [done|].
  unfold msPerDay in *. rewrite Z.div_add_l by lia.
  rewrite (Z.div_small (tzOffset env)) by lia. lia.
Qed.

(** West of UTC it selects the local day before. *)
Lemma dayRange_west text y m d :
  parseDateOnly text = Some (y, m, d) →
  - msPerDay ≤ tzOffset env < 0 →
  dayRange env text
  = Some (localMidnight (tzOffset env) (daysFromCivil y m d - 1),
          localMidnight (tzOffset env) (daysFromCivil y m d - 1) + 86399999).
Proof.
  intros H Htz. rewrite (dayRange_local_day _ _ (newDate_dateOnly _ _ _ _ H)).
  replace ((daysFromCivil y m d * msPerDay + tzOffset env) / msPerDay)
    with (daysFromCivil y m d - 1); [done|].
  unfold msPerDay in *.
  replace (daysFromCivil y m d * 86400000 + tzOffset env)
    with ((daysFromCivil y m d - 1) * 86400000 + (tzOffset env + 86400000)) by lia.
  rewrite Z.div_add_l by lia.
  rewrite (Z.div_small (tzOffset env + 86400000)) by lia. lia.
Qed.

End DayRange.

(** C9. On a server five hours behind UTC, List with the date filter
    2024-05-10 leaves out the caller's task that is due on that local day
    and answers with the one that is due on the local day before. *)
Theorem list_by_date_west_of_utc :
  parseDateOnly "2024-05-10" = Some (2024, 5, 10)
  ∧ (∃ v, dueDate dueTenth = Some v
          ∧ (v + tzOffset west) / msPerDay = daysFromCivil 2024 5 10)
  ∧ (∃ v, dueDate dueNinth = Some v
          ∧ (v + tzOffset west) / msPerDay = daysFromCivil 2024 5 9)
  ∧ listTasks west u1 onTenth twoDue = RespTasks [(2%N, dueNinth)].
Proof.
  split; [reflexivity|].
  split; [eexists; split; reflexivity|].
  split; [eexists; split; reflexivity|].
  reflexivity.
Qed.

(** The same request on a server that runs on UTC. *)
Example list_by_date_on_utc :
  listTasks noon u1 onTenth twoDue = RespTasks [(1%N, dueTenth)].
Proof. reflexivity. Qed.

(** ** Delete, and identifiers that name no task of the caller *)

(** An Update of a task that does not exist, with a payload that fails
    validation, is answered with the validation errors; and a Delete whose
    identifier is not the text of an ObjectId is answered with a server
    error. *)
Lemma update_missing_with_invalid_payload :
  (∅ : Store) !! 1%N = None
  ∧ castObjectId firstId = Some 1%N
  ∧ updateTask noon u1 firstId Body.empty ∅
    = (RespValidation [mkError "title" "Title is required";
                       mkError "category" "Invalid category";
                       mkError "priority" "Invalid priority level"], ∅)
  ∧ (updateTask noon u1 firstId Body.empty ∅).1 ≠ RespNotFound
  ∧ deleteTask u1 "reorder" ∅ = (RespServerError, ∅).
Proof. split_and!; try reflexivity. discriminate. Qed.

(** C10, amended. For an identifier that is the text of an ObjectId:
    when no task with it is owned by the caller, Delete, and Update with a
    payload that passes validation, are answered with 404 and change
    nothing, and Update with any other payload is answered with its
    validation errors; when the caller owns the task, Delete removes it and
    no other, and no List of the caller on the collection that results
    contains it. *)
Theorem delete_and_missing_ids caller id oid store :
  castObjectId id = Some oid →
  (store !! oid = None ∨ (∃ t, store !! oid = Some t ∧ user t ≠ caller) →
     deleteTask caller id store = (RespNotFound, store)
     ∧ ∀ env b,
         ((validateTask (clock env) b).2 = [] →
            updateTask env caller id b store = (RespNotFound, store))
         ∧ ((validateTask (clock env) b).2 ≠ [] →
              updateTask env caller id b store
              = (RespValidation (validateTask (clock env) b).2, store)))
  ∧ (∀ t, store !! oid = Some t → user t = caller →
       deleteTask caller id store
       = (RespMessage "Task deleted successfully", delete oid store)
       ∧ (∀ id', id' ≠ oid → delete oid store !! id' = store !! id')
       ∧ ∀ env q docs t',
           listTasks env caller q (delete oid store) = RespTasks docs →
           (oid, t') ∉ docs).
Proof.
  intros Hc. split.
  - intros Hnone%findOne_None. split.
    + unfold deleteTask. by rewrite Hc, Hnone.
    + intros env b. split.
      * intros Hv. rewrite updateTask_accepts by done. cbv zeta.
        by rewrite Hc, Hnone.
      * destruct ((validateTask (clock env) b).2) as [|e errs] eqn:E; [done|].
        intros _. rewrite <- E. apply (updateTask_rejects _ _ _ _ _ e).
        rewrite E. left.
  - intros t Ht Hu.
    assert (findOne oid caller store = Some t) as Hf by by apply findOne_Some.
    split; [unfold deleteTask; by rewrite Hc, Hf|].
    split; [intros id' Hne; by apply lookup_delete_ne|].
    intros env q docs t' (_ & _ & H)%listTasks_exact Hin.
    apply H in Hin as [Hin _]. by rewrite lookup_delete_eq in Hin.
Qed.

Lemma delete_and_missing_ids_witness :
  deleteTask u2 firstId {[1%N := milk]} = (RespNotFound, {[1%N := milk]})
  ∧ updateTask noon u2 firstId buyMilk {[1%N := milk]} = (RespNotFound, {[1%N := milk]})
  ∧ deleteTask u1 firstId {[1%N := milk]}
    = (RespMessage "Task deleted successfully", delete 1%N {[1%N := milk]}).
Proof.
  destruct (delete_and_missing_ids u2 firstId 1%N {[1%N := milk]} eq_refl)
    as [Hmissing _].
  destruct Hmissing as [Hd Hu].
  { right. exists milk. split; [reflexivity | discriminate]. }
  destruct (delete_and_missing_ids u1 firstId 1%N {[1%N := milk]} eq_refl)
    as [_ Howned].
  destruct (Howned milk eq_refl eq_refl) as [Hdel _].
  split; [exact Hd|]. split; [exact (proj1 (Hu noon buyMilk) eq_refl) | exact Hdel].
Defined.

(** Create, complete, then list by status: the example of the
    specification, with the payload that Update requires. *)
Example create_complete_list :
  ∃ t st,
    updateTask noon u1 firstId completeMilk (createTask noon u1 buyMilk ∅).2
    = (RespTask 1%N t, st)
    ∧ listTasks noon u1 (Query.mk None (Some "Completed") None None) st
      = RespTasks [(1%N, t)].
Proof. do 2 eexists. split; reflexivity. Qed.

(** * Further properties of the routes *)

(** ** What a handler can do to the collection *)

Section Outcomes.
Context (env : Env) (caller : ObjectId) (store : Store).

(** Create either leaves the collection as it is, with an error, or adds
    one document under the fresh identifier. *)
Lemma createTask_outcome b r st :
  createTask env caller b store = (r, st) →
  (st = store ∧ (r = RespValidation (validateTask (clock env) b).2 ∨ r = RespServerError))
  ∨ (∃ t, r = RespCreated (nextId env) t
          ∧ st = <[nextId env := t]> store
          ∧ store !! nextId env = None
          ∧ newTask (clock env) caller (validateTask (clock env) b).1 = Some t
          ∧ schemaValid (clock env) t = true
          ∧ (validateTask (clock env) b).2 = []).
Proof.
  destruct ((validateTask (clock env) b).2) as [|e errs] eqn:E.
  - rewrite createTask_accepts by done.
    destruct (newTask _ _ _) as [t|] eqn:Hn; [|intros [= <- <-]; auto].
    destruct (schemaValid (clock env) t) eqn:Hv; [|intros [= <- <-]; auto].
    destruct (store !! nextId env) eqn:Hf; intros [= <- <-]; [auto|].
    right. exists t. split_and!; done.
  - rewrite (createTask_rejects env caller store b e) by (rewrite E; left).
    rewrite E. intros [= <- <-]. auto.
Qed.

(** Update either leaves the collection as it is, with an error, or
    replaces one document of the caller by its merge with the payload. *)
Lemma updateTask_outcome id b r st :
  updateTask env caller id b store = (r, st) →
  (st = store
   ∧ (r = RespValidation (validateTask (clock env) b).2 ∨ r = RespServerError
      ∨ r = RespNotFound))
  ∨ (∃ oid t t', r = RespTask oid t'
          ∧ st = <[oid := t']> store
          ∧ castObjectId id = Some oid
          ∧ findOne oid caller store = Some t
          ∧ assign (validateTask (clock env) b).1 t = Some t'
          ∧ schemaValid (clock env) t' = true
          ∧ (validateTask (clock env) b).2 = []).
Proof.
  destruct ((validateTask (clock env) b).2) as [|e errs] eqn:E.
  - rewrite updateTask_accepts by done. cbv zeta.
    destruct (castObjectId id) as [oid|]; [|intros [= <- <-]; auto].
    destruct (findOne oid caller store) as [t|] eqn:Hf; [|intros [= <- <-]; auto].
    destruct (assign _ t) as [t1|] eqn:Ha; [|intros [= <- <-]; auto].
    rewrite (stamp_never_fires _ _ _ Ha).
    destruct (schemaValid (clock env) t1) eqn:Hv; intros [= <- <-]; [|auto].
    right. exists oid, t, t1. split_and!; done.
  - rewrite (updateTask_rejects env caller store id b e) by (rewrite E; left).
    rewrite E. intros [= <- <-]. auto.
Qed.

(** Delete either leaves the collection as it is, with an error, or removes
    one document of the caller. *)
Lemma deleteTask_outcome id r st :
  deleteTask caller id store = (r, st) →
  (st = store ∧ (r = RespServerError ∨ r = RespNotFound))
  ∨ (∃ oid t, r = RespMessage "Task deleted successfully"
          ∧ st = delete oid store
          ∧ castObjectId id = Some oid
          ∧ findOne oid caller store = Some t).
Proof.
  unfold deleteTask.
  destruct (castObjectId id) as [oid|]; [|intros [= <- <-]; auto].
  destruct (findOne oid caller store) as [t|] eqn:Hf; intros [= <- <-]; [|auto].
  right. exists oid, t. auto.
Qed.

End Outcomes.

Lemma schemaValid_static now t :
  schemaValid now t = true →
  title t ≠ "" ∧ maxlength 100 (title t) = true
  ∧ from_option (maxlength 500) true (description t) = true
  ∧ isIn (category t) categories = true
  ∧ isIn (priority t) priorities = true
  ∧ isIn (status t) statuses = true
  ∧ futureOrUnset now (dueDate t) = true
  ∧ futureOrUnset now (reminder t) = true.
Proof.
  unfold schemaValid. rewrite !andb_true_iff, negb_true_iff, String.eqb_neq. tauto.
Qed.

Lemma wellFormed_intro now t :
  schemaValid now t = true → trim (title t) = title t → wellFormed t = true.
Proof.
  intros (? & ? & ? & ? & ? & ? & _)%schemaValid_static Ht. unfold wellFormed.
  rewrite !andb_true_iff, negb_true_iff, String.eqb_neq, String.eqb_eq. tauto.
Qed.

Lemma newTask_title now caller b t :
  newTask now caller b = Some t → title t = trim (toString (Body.title b)).
Proof.
  unfold newTask.
  destruct (castDate (Body.dueDate b)); simpl; [|done].
  destruct (castDate (Body.reminder b)); simpl; [|done].
  by intros [= <-].
Qed.

(** The fields that the merge loop writes, one by one. *)
Lemma assign_merge b t t1 :
  assign b t = Some t1 →
  title t1 = from_option trim (title t) (Body.title b)
  ∧ description t1 = from_option (λ d, Some (trim d)) (description t) (Body.description b)
  ∧ category t1 = default (category t) (Body.category b)
  ∧ priority t1 = default (priority t) (Body.priority b)
  ∧ Some (dueDate t1)
    = from_option (λ v, Some <$> getTime v) (Some (dueDate t)) (Body.dueDate b)
  ∧ Some (reminder t1)
    = from_option (λ v, Some <$> getTime v) (Some (reminder t)) (Body.reminder b)
  ∧ createdAt t1 = default (createdAt t) (Body.createdAt b).
Proof.
  unfold assign. intros H.
  repeat match type of H with
         | mbind _ ?m = Some _ => destruct m eqn:?; simpl in H; [|discriminate H]
         end.
  injection H as <-; simpl. split_and!; done.
Qed.

Lemma created_wellFormed now caller b t :
  newTask now caller b = Some t → schemaValid now t = true → wellFormed t = true.
Proof.
  intros Hn Hv. apply (wellFormed_intro now); [done|].
  by rewrite (newTask_title _ _ _ _ Hn), trim_idem.
Qed.

Lemma updated_wellFormed now b t t' :
  assign (validateTask now b).1 t = Some t' → schemaValid now t' = true →
  wellFormed t' = true.
Proof.
  intros (Ht & _)%assign_merge Hv. apply (wellFormed_intro now); [done|].
  rewrite validateTask_body in Ht; simpl in Ht. by rewrite Ht, !trim_idem.
Qed.

Lemma newTask_user now caller b t : newTask now caller b = Some t → user t = caller.
Proof.
  unfold newTask.
  destruct (castDate (Body.dueDate b)); simpl; [|done].
  destruct (castDate (Body.reminder b)); simpl; [|done].
  by intros [= <-].
Qed.

(** Every answer of the router, and what it has done to the collection. *)
Lemma handle_outcome env req store r st :
  handle env req store = (r, st) →
  (st = store ∧ (400 ≤ statusCode r ∨ ∃ docs, r = RespTasks docs))
  ∨ (∃ t, r = RespCreated (nextId env) t
          ∧ st = <[nextId env := t]> store
          ∧ store !! nextId env = None
          ∧ user t = caller req
          ∧ schemaValid (clock env) t = true
          ∧ wellFormed t = true)
  ∨ (∃ oid t t', r = RespTask oid t'
          ∧ st = <[oid := t']> store
          ∧ findOne oid (caller req) store = Some t
          ∧ assign (validateTask (clock env) (body req)).1 t = Some t'
          ∧ schemaValid (clock env) t' = true
          ∧ wellFormed t' = true)
  ∨ (∃ oid t, r = RespMessage "Task deleted successfully"
          ∧ st = delete oid store
          ∧ findOne oid (caller req) store = Some t).
Proof.
  unfold handle.
  destruct (dispatch routes (method req) (segments req)) as [[h params]|] eqn:Hd;
    [|intros [= <- <-]; left; split; [done|left; simpl; lia]].
  destruct h.
  - intros [= <- <-]. left. split; [done|]. unfold listTasks.
    destruct (match truthy (Query.dueDate (query req)) with
              | Some text => Some <$> dayRange env text
              | None => Some None
              end); [right; eauto | left; simpl; lia].
  - intros [(-> & [-> | ->]) | (t & -> & -> & ? & Hn & ? & ?)]%createTask_outcome.
    + left. split; [done|]. left. simpl; lia.
    + left. split; [done|]. left. simpl; lia.
    + right; left. exists t. split_and!; try done;
        [by eapply newTask_user | by eapply created_wellFormed].
  - intros [(-> & Hr) | (oid & t & t' & -> & -> & ? & ? & ? & ? & ?)]%updateTask_outcome.
    + left. split; [done|]. left. destruct Hr as [-> | [-> | ->]]; simpl; lia.
    + do 2 right; left. exists oid, t, t'. split_and!; try done.
      by eapply updated_wellFormed.
  - intros [(-> & Hr) | (oid & t & -> & -> & ? & ?)]%deleteTask_outcome.
    + left. split; [done|]. left. destruct Hr as [-> | ->]; simpl; lia.
    + do 3 right. exists oid, t. auto.
  - by apply reorder_unreachable in Hd.
  - intros [= <- <-]. left. split; [done|]. right. unfold tasksByCategory. eauto.
  - intros [= <- <-]. left. split; [done|]. unfold tasksByDueDate.
    destruct (dayRange env _); [right; eauto | left; simpl; lia].
Qed.

(** ** Routing *)

(** X1. A path of one segment is an identifier to the router, whatever it
    spells: PUT runs Update and DELETE runs Delete on it, and there is no
    route that reads or creates under such a path. *)
Theorem single_segment_routes x :
  x ≠ "" →
  dispatch routes PUT [x] = Some (HUpdate, [("id", x)])
  ∧ dispatch routes DELETE [x] = Some (HDelete, [("id", x)])
  ∧ dispatch routes GET [x] = None
  ∧ dispatch routes POST [x] = None
  ∧ ∀ env req store, segments req = [x] → method req = GET ∨ method req = POST →
      handle env req store = (RespNoRoute, store).
Proof.
  intros Hx%String.eqb_neq.
  assert (dispatch routes GET [x] = None) as Hget.
  { route. by destruct (String.eqb "category" x), (String.eqb "due" x). }
  assert (dispatch routes POST [x] = None) as Hpost by by route.
  split_and!; try done.
  - route. by rewrite Hx.
  - route. by rewrite Hx.
  - intros env req store Hs Hm. unfold handle. rewrite Hs.
    destruct Hm as [-> | ->]; by rewrite ?Hget, ?Hpost.
Qed.

Lemma single_segment_routes_witness :
  dispatch routes DELETE ["due"] = Some (HDelete, [("id", "due")])
  ∧ handle noon (request GET [firstId] Body.empty) {[1%N := milk]}
    = (RespNoRoute, {[1%N := milk]}).
Proof.
  split.
  - exact (proj1 (proj2 (single_segment_routes "due" ltac:(discriminate)))).
  - exact (proj2 (proj2 (proj2 (proj2
      (single_segment_routes firstId ltac:(discriminate))))) noon
      (request GET [firstId] Body.empty) {[1%N := milk]} eq_refl (or_introl eq_refl)).
Defined.

(** ** What no request does *)

Lemma handle_pair env req store :
  handle env req store = ((handle env req store).1, (handle env req store).2).
Proof. by destruct (handle env req store). Qed.

(** X2. A request that is answered with an error status, 400 or above,
    has left the collection exactly as it was. *)
Theorem failed_request_changes_nothing env req store :
  400 ≤ statusCode (handle env req store).1 → (handle env req store).2 = store.
Proof.
  destruct (handle_outcome env req store _ _ (handle_pair env req store))
    as [[-> _] | [(t & -> & _) | [(oid & t & t' & -> & _) | (oid & t & -> & _)]]];
    simpl; [done | lia | lia | lia].
Qed.

Lemma failed_request_changes_nothing_witness :
  (handle noon (request PUT [firstId] statusOnly) {[1%N := milk]}).2 = {[1%N := milk]}.
Proof.
  apply (failed_request_changes_nothing noon (request PUT [firstId] statusOnly)
           {[1%N := milk]}).
  vm_compute. discriminate.
Defined.

(** X3. A GET request never changes the collection, whatever its path
    and its query. *)
Theorem get_changes_nothing env req store :
  method req = GET → (handle env req store).2 = store.
Proof.
  intros Hm. unfold handle. rewrite Hm.
  destruct (dispatch routes GET (segments req)) as [[h params]|] eqn:Hd; [|done].
  by destruct (dispatch_GET _ _ _ Hd) as [-> | [-> | ->]].
Qed.

Lemma get_changes_nothing_witness :
  (handle noon (request GET ["category"; "Personal"] Body.empty) fourTasks).2 = fourTasks.
Proof.
  exact (get_changes_nothing noon (request GET ["category"; "Personal"] Body.empty)
           fourTasks eq_refl).
Defined.

Lemma handle_foreign env req store id t :
  store !! id = Some t → user t ≠ caller req →
  (handle env req store).2 !! id = Some t.
Proof.
  intros Hid Hu.
  destruct (handle_outcome env req store _ _ (handle_pair env req store))
    as [[-> _] | [(t0 & _ & -> & Hf & _)
       | [(oid & t0 & t' & _ & -> & Hf & _) | (oid & t0 & _ & -> & Hf)]]].
  - done.
  - rewrite lookup_insert_ne; [done|]. intros <-. congruence.
  - apply findOne_Some in Hf as [Hf Hu0].
    rewrite lookup_insert_ne; [done|]. intros <-. congruence.
  - apply findOne_Some in Hf as [Hf Hu0].
    rewrite lookup_delete_ne; [done|]. intros <-. congruence.
Qed.

(** X4. No request whose payload carries the declared paths of the schema
    and no other key changes or removes a task that another principal owns:
    Create adds under a fresh identifier, Update and Delete look their task
    up with the caller as owner, and the merge loop of Update, fed with
    these keys, writes to the document that it has looked up. *)
Theorem foreign_tasks_untouched env req store id t :
  store !! id = Some t → user t ≠ caller req →
  (handle env req store).2 !! id = Some t.
Proof. apply handle_foreign. Qed.

Lemma foreign_tasks_untouched_witness :
  (handle noon (request DELETE [fourthId] Body.empty) fourTasks).2 !! 4%N
  = Some (plain u2 "four" 8).
Proof.
  apply (foreign_tasks_untouched noon (request DELETE [fourthId] Body.empty) fourTasks
           4%N (plain u2 "four" 8)); [reflexivity | discriminate].
Defined.

(** ** What the collection keeps *)

Lemma sameButOrder_wellFormed t t' : sameButOrder t t' → wellFormed t' = wellFormed t.
Proof. intros H. exact (f_equal wellFormed (H 0)). Qed.

(** X5. The stored documents keep satisfying the schema's validators of
    title, description, category, priority and status, with a title that
    has no white space around it: every request that the router answers
    keeps this, and so does the bulk write of Reorder, which no validator
    sees. *)
Theorem stored_tasks_stay_wellFormed store :
  allWellFormed store →
  (∀ env req, allWellFormed (handle env req store).2)
  ∧ (∀ caller tasks, allWellFormed (reorderTasks caller tasks store).2).
Proof.
  intros Hwf. split.
  - intros env req.
    destruct (handle_outcome env req store _ _ (handle_pair env req store))
      as [[-> _] | [(t0 & _ & -> & _ & _ & _ & Hw)
         | [(oid & t0 & t' & _ & -> & _ & _ & _ & Hw) | (oid & t0 & _ & -> & _)]]].
    + done.
    + intros id t [[<- <-] | [_ Hid]]%lookup_insert_Some; eauto.
    + intros id t [[<- <-] | [_ Hid]]%lookup_insert_Some; eauto.
    + intros id t [_ Hid]%lookup_delete_Some. eauto.
  - intros caller [|items]; [done|]. simpl.
    destruct (bulkWrite_reordered caller store items) as [Habs Hkept _ _ _].
    intros id t Hid.
    destruct (store !! id) as [t0|] eqn:E.
    + destruct (Hkept _ _ E) as (t1 & Ht1 & Hsame).
      rewrite Hid in Ht1. injection Ht1 as <-.
      rewrite (sameButOrder_wellFormed _ _ Hsame). eauto.
    + rewrite (Habs _ E) in Hid. discriminate.
Qed.

Lemma stored_tasks_stay_wellFormed_witness :
  allWellFormed (handle noon (request PUT [firstId] completeMilk) {[1%N := milk]}).2
  ∧ allWellFormed (reorderTasks u1 (TasksArray [1%N]) {[1%N := milk]}).2.
Proof.
  assert (allWellFormed {[1%N := milk]}) as Hwf.
  { intros id t [_ <-]%lookup_singleton_Some. reflexivity. }
  destruct (stored_tasks_stay_wellFormed {[1%N := milk]} Hwf) as [Hh Hr].
  split; [apply Hh | apply Hr].
Defined.

(** X6. Reorder, and Update with a payload that carries the declared
    paths of the schema and no other key, neither add nor remove a task: the
    identifiers of the collection are the same after them, whatever they
    answer. *)
Theorem update_and_reorder_keep_ids env caller store :
  (∀ id b, dom (updateTask env caller id b store).2 = dom store)
  ∧ (∀ tasks, dom (reorderTasks caller tasks store).2 = dom store).
Proof.
  split.
  - intros id b.
    destruct (updateTask_outcome env caller store id b _ _ (surjective_pairing _))
      as [[-> _] | (oid & t & t' & _ & -> & _ & Hf & _)]; [done|].
    apply findOne_Some in Hf as [Hf _]. by apply dom_insert_lookup_L.
  - intros [|items]; [done|]. simpl.
    destruct (bulkWrite_reordered caller store items) as [Habs Hkept _ _ _].
    apply set_eq. intros id. rewrite !elem_of_dom.
    destruct (store !! id) as [t|] eqn:E.
    + destruct (Hkept _ _ E) as (t' & -> & _). split; eauto.
    + rewrite (Habs _ E). done.
Qed.

(** ** Update *)

Lemma accepted_required now b :
  Accepted now b →
  ∃ s c p, Body.title b = Some s ∧ Body.category b = Some c ∧ Body.priority b = Some p.
Proof.
  intros [Ht _ _ Hc Hp _ _ _].
  destruct (Body.title b) as [s|]; [|exfalso; apply Ht; reflexivity].
  destruct (Body.category b) as [c|]; [|simpl in Hc; discriminate Hc].
  destruct (Body.priority b) as [p|]; [|simpl in Hp; discriminate Hp].
  by exists s, c, p.
Qed.

(** X7. An Update that is applied has a payload with a title, a category
    and a priority, and stores the caller's task with these three (the title
    trimmed) and with every other declared field, the owner among them,
    either as the payload has it or, where the payload leaves it out, as it
    was stored. *)
Theorem update_merges_payload env caller id b store oid t' :
  (updateTask env caller id b store).1 = RespTask oid t' →
  ∃ t s c p,
    findOne oid caller store = Some t
    ∧ (updateTask env caller id b store).2 = <[oid := t']> store
    ∧ Body.title b = Some s ∧ title t' = trim s
    ∧ Body.category b = Some c ∧ category t' = c
    ∧ Body.priority b = Some p ∧ priority t' = p
    ∧ description t' = from_option (λ d, Some (trim d)) (description t) (Body.description b)
    ∧ status t' = default (status t) (Body.status b)
    ∧ Some (dueDate t')
      = from_option (λ v, Some <$> getTime v) (Some (dueDate t)) (Body.dueDate b)
    ∧ Some (reminder t')
      = from_option (λ v, Some <$> getTime v) (Some (reminder t)) (Body.reminder b)
    ∧ order t' = default (order t) (Body.order b)
    ∧ createdAt t' = default (createdAt t) (Body.createdAt b)
    ∧ completedAt t' = from_option Some (completedAt t) (Body.completedAt b)
    ∧ (Body.user b = None → user t' = user t)
    ∧ (∀ text, Body.user b = Some text → castObjectId text = Some (user t')).
Proof.
  intros Hr.
  destruct (updateTask_outcome env caller store id b _ _ (surjective_pairing _))
    as [[_ Herr] | (oid' & t & t1 & Hr' & Hst & _ & Hf & Ha & _ & Hv)].
  { rewrite Hr in Herr. by destruct Herr as [? | [? | ?]]. }
  rewrite Hr in Hr'. injection Hr' as <- <-.
  destruct (accepted_required _ _ (validateTask_accepted _ _ Hv))
    as (s & c & p & Hs & Hc & Hp).
  pose proof (assign_merge _ _ _ Ha) as (Ht & Hd & Hcat & Hpri & Hdue & Hrem & Hcr).
  pose proof (assign_fields _ _ _ Ha) as (Hstat & Hcomp & Hown & Hord).
  rewrite validateTask_body in *; simpl in *.
  rewrite Hs, Hc, Hp in *; simpl in *.
  exists t, s, c, p. split_and!; try done.
  - by rewrite Ht, trim_idem.
  - rewrite Hd. destruct (Body.description b); simpl; [by rewrite trim_idem | done].
  - intros Hu. rewrite Hu in Hown; simpl in Hown. congruence.
  - intros text Hu. rewrite Hu in Hown; simpl in Hown. congruence.
Qed.

Lemma update_merges_payload_witness :
  ∃ t s c p,
    findOne 1%N u1 {[1%N := milk]} = Some t
    ∧ (updateTask noon u1 firstId completeMilk {[1%N := milk]}).2
      = <[1%N := mkTask "Buy milk" None "Personal" "Low" "Completed" None None 0 u1
                  1715342400000 None]> {[1%N := milk]}
    ∧ Body.title completeMilk = Some s ∧ "Buy milk" = trim s
    ∧ Body.category completeMilk = Some c ∧ "Personal" = c
    ∧ Body.priority completeMilk = Some p ∧ "Low" = p
    ∧ u1 = user t.
Proof.
  assert ((updateTask noon u1 firstId completeMilk {[1%N := milk]}).1
          = RespTask 1%N (mkTask "Buy milk" None "Personal" "Low" "Completed" None None 0
                            u1 1715342400000 None)) as Hfirst by reflexivity.
  destruct (update_merges_payload noon u1 firstId completeMilk {[1%N := milk]} 1%N _
              Hfirst)
    as (t & s & c & p & H1 & H2 & H3 & H4 & H5 & H6 & H7 & H8 & _ & _ & _ & _ & _ & _
        & _ & Hkeep & _).
  exists t, s, c, p. split_and!; try assumption. exact (Hkeep eq_refl).
Defined.

Lemma assign_again b t t1 : assign b t = Some t1 → assign b t1 = Some t1.
Proof.
  intros H. pose proof H as H'. unfold assign in H' |- *.
  destruct (match Body.dueDate b with
            | Some v => Some <$> getTime v
            | None => Some (dueDate t)
            end) as [due|] eqn:Hdue; simpl in H'; [|discriminate H'].
  destruct (match Body.reminder b with
            | Some v => Some <$> getTime v
            | None => Some (reminder t)
            end) as [rm|] eqn:Hrem; simpl in H'; [|discriminate H'].
  destruct (match Body.user b with
            | Some s => castObjectId s
            | None => Some (user t)
            end) as [owner|] eqn:Hown; simpl in H'; [|discriminate H'].
  injection H' as <-; simpl.
  assert (match Body.dueDate b with
          | Some v => Some <$> getTime v
          | None => Some due
          end = Some due) as -> by (by destruct (Body.dueDate b)).
  assert (match Body.reminder b with
          | Some v => Some <$> getTime v
          | None => Some rm
          end = Some rm) as -> by (by destruct (Body.reminder b)).
  assert (match Body.user b with
          | Some s => castObjectId s
          | None => Some owner
          end = Some owner) as -> by (by destruct (Body.user b)).
  simpl. do 2 f_equal.
  - by destruct (Body.title b).
  - by destruct (Body.description b).
  - by destruct (Body.category b).
  - by destruct (Body.priority b).
  - by destruct (Body.status b).
  - by destruct (Body.order b).
  - by destruct (Body.createdAt b).
  - by destruct (Body.completedAt b).
Qed.

(** X8. Update is idempotent: when an Update whose payload has no [user]
    is applied, the same request on the collection that results, at the same
    reading of the clock, is applied again, with the same answer, and changes
    nothing more. *)
Theorem update_twice env caller id b store oid t' st :
  Body.user b = None →
  updateTask env caller id b store = (RespTask oid t', st) →
  updateTask env caller id b st = (RespTask oid t', st).
Proof.
  intros Hu Hfirst.
  pose proof (updateTask_keeps_owner env caller store id b oid t' Hu) as Hown.
  rewrite Hfirst in Hown. specialize (Hown eq_refl).
  destruct (updateTask_outcome env caller store id b _ _ Hfirst)
    as [[_ Herr] | (oid' & t & t1 & Hr & -> & Hc & Hf & Ha & Hs & Hv)].
  { by destruct Herr as [? | [? | ?]]. }
  injection Hr as <- <-.
  rewrite updateTask_accepts by done. cbv zeta. rewrite Hc.
  assert (findOne oid caller (<[oid := t']> store) = Some t') as ->.
  { apply findOne_Some. by rewrite lookup_insert_eq. }
  rewrite (assign_again _ _ _ Ha), (stamp_never_fires _ _ _ (assign_again _ _ _ Ha)), Hs.
  by rewrite insert_insert_eq.
Qed.

Lemma update_twice_witness :
  updateTask noon u1 firstId completeMilk
    (updateTask noon u1 firstId completeMilk {[1%N := milk]}).2
  = updateTask noon u1 firstId completeMilk {[1%N := milk]}.
Proof.
  rewrite (update_twice noon u1 firstId completeMilk {[1%N := milk]} 1%N
             (mkTask "Buy milk" None "Personal" "Low" "Completed" None None 0 u1
                1715342400000 None)
             (updateTask noon u1 firstId completeMilk {[1%N := milk]}).2);
    reflexivity.
Defined.

(** ** Create, Delete and List together *)

(** X9. Create and then Delete of the new task by the same caller gives
    back the collection as it was before the two. *)
Theorem create_then_delete env caller b store id t st idText :
  createTask env caller b store = (RespCreated id t, st) →
  castObjectId idText = Some id →
  deleteTask caller idText st = (RespMessage "Task deleted successfully", store).
Proof.
  intros Hc Hid.
  destruct (createTask_outcome env caller store b _ _ Hc)
    as [[_ [? | ?]] | (t0 & Hr & -> & Hfresh & Hn & _)]; [done | done |].
  injection Hr as -> ->.
  unfold deleteTask. rewrite Hid.
  assert (findOne (nextId env) caller (<[nextId env := t0]> store) = Some t0) as ->.
  { apply findOne_Some. rewrite lookup_insert_eq. eauto using newTask_user. }
  by rewrite delete_insert_id.
Qed.

Lemma create_then_delete_witness :
  deleteTask u1 firstId (createTask noon u1 buyMilk ∅).2
  = (RespMessage "Task deleted successfully", ∅).
Proof.
  apply (create_then_delete noon u1 buyMilk ∅ 1%N milk _ firstId); reflexivity.
Defined.

(** X10. Once a task is deleted, a further Delete of it and every Update
    of it with a payload that passes validation are answered 404, and change
    nothing. *)
Theorem deleted_task_is_gone caller id store st :
  deleteTask caller id store = (RespMessage "Task deleted successfully", st) →
  deleteTask caller id st = (RespNotFound, st)
  ∧ ∀ env b, (validateTask (clock env) b).2 = [] →
      updateTask env caller id b st = (RespNotFound, st).
Proof.
  intros [[_ [? | ?]] | (oid & t & _ & -> & Hc & _)]%deleteTask_outcome; [done | done |].
  assert (findOne oid caller (delete oid store) = None) as Hnone.
  { apply findOne_None. left. apply lookup_delete_eq. }
  split.
  - unfold deleteTask. by rewrite Hc, Hnone.
  - intros env b Hv. rewrite updateTask_accepts by done. cbv zeta.
    by rewrite Hc, Hnone.
Qed.

Lemma deleted_task_is_gone_witness :
  deleteTask u1 firstId (deleteTask u1 firstId {[1%N := milk]}).2
  = (RespNotFound, (deleteTask u1 firstId {[1%N := milk]}).2).
Proof.
  apply (deleted_task_is_gone u1 firstId {[1%N := milk]}). reflexivity.
Defined.

Lemma listTasks_unfiltered env caller store :
  ∃ docs, listTasks env caller Query.empty store = RespTasks docs
          ∧ StronglySorted byOrder docs ∧ NoDup docs
          ∧ ∀ id t, (id, t) ∈ docs ↔ store !! id = Some t ∧ user t = caller.
Proof.
  destruct (listTasks_answers env caller store Query.empty) as [docs Hd]; [done|].
  exists docs. split; [done|].
  destruct (listTasks_exact _ _ _ _ _ Hd) as (? & ? & H).
  split; [done|]. split; [done|]. intros id t. rewrite H. simpl.
  split; [tauto|]. intros [? ?]. split_and!; try done.
Qed.

(** X11. After a Create, the unfiltered List of the caller holds the new
    task once, next to the tasks that it held before, and nothing else. *)
Theorem created_task_is_listed env caller b store id t st env' :
  createTask env caller b store = (RespCreated id t, st) →
  ∃ docs docs',
    listTasks env' caller Query.empty store = RespTasks docs
    ∧ listTasks env' caller Query.empty st = RespTasks docs'
    ∧ docs' ≡ₚ (id, t) :: docs.
Proof.
  intros Hc.
  destruct (createTask_outcome env caller store b _ _ Hc)
    as [[_ [? | ?]] | (t0 & Hr & -> & Hfresh & Hn & _)]; [done | done |].
  injection Hr as -> ->.
  destruct (listTasks_unfiltered env' caller store) as (docs & Hd & _ & Hnd & Hin).
  destruct (listTasks_unfiltered env' caller (<[nextId env := t0]> store))
    as (docs' & Hd' & _ & Hnd' & Hin').
  exists docs, docs'. split; [done|]. split; [done|].
  apply NoDup_Permutation; [done | |].
  - apply NoDup_cons. split; [|done]. rewrite Hin. intros [? _]. congruence.
  - intros [id' t']. rewrite elem_of_cons, Hin, Hin', lookup_insert_Some.
    pose proof (newTask_user _ _ _ _ Hn). split.
    + intros [[[<- <-] | [? ?]] ?]; auto.
    + intros [[= -> ->] | [? ?]]; [auto|]. split; [|done]. right. split; congruence.
Qed.

Lemma created_task_is_listed_witness :
  ∃ docs docs',
    listTasks noon u1 Query.empty {[2%N := plain u1 "two" 6]} = RespTasks docs
    ∧ listTasks noon u1 Query.empty
        (createTask noon u1 buyMilk {[2%N := plain u1 "two" 6]}).2 = RespTasks docs'
    ∧ docs' ≡ₚ (1%N, milk) :: docs.
Proof.
  apply (created_task_is_listed noon u1 buyMilk {[2%N := plain u1 "two" 6]} 1%N milk).
  reflexivity.
Defined.

(** ** The methods of the schema *)

(** X12. A task is not overdue at the moment that Create answers with
    it: a due date that it has is after the current time, so that
    [isOverdue] is false; without a due date [isOverdue] is not true
    either. *)
Theorem created_task_not_overdue env caller b store id t :
  (createTask env caller b store).1 = RespCreated id t →
  (∀ d, dueDate t = Some d → clock env < d ∧ isOverdue (clock env) t = false)
  ∧ isOverdue (clock env) t ≠ true.
Proof.
  intros Hr.
  destruct (createTask_outcome env caller store b _ _ (surjective_pairing _))
    as [[_ Herr] | (t0 & Hr' & _ & _ & _ & Hv & _)].
  { rewrite Hr in Herr. by destruct Herr. }
  rewrite Hr in Hr'. injection Hr' as _ ->.
  apply schemaValid_static in Hv as (_ & _ & _ & _ & _ & _ & Hdue & _).
  assert (∀ d, dueDate t0 = Some d → clock env < d ∧ isOverdue (clock env) t0 = false)
    as Hdated.
  { intros d Hd. unfold isOverdue. rewrite Hd in Hdue |- *. simpl in Hdue.
    apply Z.ltb_lt in Hdue. split; [done|].
    replace (d <? clock env) with false; [done|]. symmetry. apply Z.ltb_ge. lia. }
  split; [done|].
  destruct (dueDate t0) as [d|] eqn:Hd.
  - destruct (Hdated d eq_refl) as [_ ->]. discriminate.
  - unfold isOverdue. rewrite Hd. discriminate.
Qed.

Lemma created_task_not_overdue_witness :
  ∃ t, (createTask noon u1 dueTomorrow ∅).1 = RespCreated 1%N t
       ∧ dueDate t = Some 1715428800000
       ∧ clock noon < 1715428800000
       ∧ isOverdue (clock noon) t = false.
Proof.
  assert ((createTask noon u1 dueTomorrow ∅).1
          = RespCreated 1%N (mkTask "Buy milk" None "Personal" "Low" "Pending"
                               (Some 1715428800000) None 0 u1 1715342400000 None))
    as Hfirst by reflexivity.
  eexists. split; [exact Hfirst|]. split; [reflexivity|].
  exact (proj1 (created_task_not_overdue noon u1 dueTomorrow ∅ 1%N _ Hfirst)
           1715428800000 eq_refl).
Defined.

(** X13. [isOverdue] holds exactly of a task that has a due date before
    the current time and is not Completed; so a task that is overdue stays
    overdue as time passes, as long as it is not changed. *)
Theorem isOverdue_exactly now t :
  (isOverdue now t = true ↔
     ∃ d, dueDate t = Some d ∧ d < now ∧ status t ≠ "Completed")
  ∧ (∀ later, now ≤ later → isOverdue now t = true → isOverdue later t = true).
Proof.
  assert (∀ n, isOverdue n t = true ↔
               ∃ d, dueDate t = Some d ∧ d < n ∧ status t ≠ "Completed") as Hiff.
  { intros n. unfold isOverdue. destruct (dueDate t) as [d|].
    - rewrite andb_true_iff, negb_true_iff, Z.ltb_lt, String.eqb_neq. split.
      + intros [? ?]. eauto.
      + intros (? & [= <-] & ? & ?). done.
    - split; [done | by intros (? & ? & _)]. }
  split; [apply Hiff|].
  intros later Hle (d & Hd & Hlt & Hs)%Hiff. apply Hiff. exists d.
  split; [done|]. split; [lia | done].
Qed.

Lemma isOverdue_exactly_witness :
  isOverdue 1715342400001 dueNinth = true.
Proof.
  apply (proj2 (isOverdue_exactly 1715342400000 dueNinth) 1715342400001);
    [vm_compute; discriminate | reflexivity].
Defined.

(** X14. The virtual [age] counts the whole days since [createdAt]: it
    is [k] from [k] days after the creation until the millisecond before
    [k + 1] days, also for a negative [k], when [createdAt] lies ahead. *)
Theorem age_counts_whole_days t k r :
  0 ≤ r < 86400000 → age (createdAt t + k * 86400000 + r) t = k.
Proof.
  intros Hr. unfold age.
  replace (createdAt t + k * 86400000 + r - createdAt t) with (k * 86400000 + r) by lia.
  change (1000 * 60 * 60 * 24) with 86400000.
  rewrite Z.div_add_l by lia. rewrite (Z.div_small r) by lia. lia.
Qed.

Lemma age_counts_whole_days_witness :
  age (createdAt milk + 2 * 86400000 + 86399999) milk = 2.
Proof. apply (age_counts_whole_days milk 2 86399999). lia. Defined.

(** ** The two routes that list by one filter *)

Lemma dispatch_category c :
  c ≠ "" → dispatch routes GET ["category"; c] = Some (HByCategory, [("category", c)]).
Proof. intros Hc%String.eqb_neq. route. by rewrite Hc. Qed.

Lemma dispatch_due date :
  date ≠ "" → dispatch routes GET ["due"; date] = Some (HByDueDate, [("date", date)]).
Proof. intros Hc%String.eqb_neq. route. by rewrite Hc. Qed.

Lemma truthy_Some s : s ≠ "" → truthy (Some s) = Some s.
Proof. intros Hs%String.eqb_neq. unfold truthy. by rewrite Hs. Qed.

(** X15. GET /category/:category answers with the tasks that List
    answers with when that category is its only filter (the two differ in
    the envelope of the JSON only): exactly the caller's tasks of the
    category, each once, by ascending order; for a category that the schema
    does not know it answers with no task, and no error. *)
Theorem category_route env req store c :
  method req = GET → segments req = ["category"; c] → c ≠ "" →
  handle env req store
  = (listTasks env (caller req) (Query.mk (Some c) None None None) store, store)
  ∧ ∃ docs, (handle env req store).1 = RespTasks docs
      ∧ StronglySorted byOrder docs ∧ NoDup docs
      ∧ (∀ id t, (id, t) ∈ docs ↔
           store !! id = Some t ∧ user t = caller req ∧ category t = c)
      ∧ (allWellFormed store → isIn c categories = false → docs = []).
Proof.
  intros Hm Hs Hc.
  assert (handle env req store
          = (listTasks env (caller req) (Query.mk (Some c) None None None) store, store))
    as Heq.
  { unfold handle. rewrite Hm, Hs, (dispatch_category c Hc).
    unfold listTasks, tasksByCategory. cbn -[truthy sortByOrder find].
    by rewrite (truthy_Some c Hc). }
  split; [done|]. rewrite Heq; simpl.
  destruct (listTasks_answers env (caller req) store (Query.mk (Some c) None None None))
    as [docs Hd]; [done|].
  exists docs. split; [done|].
  destruct (listTasks_exact _ _ _ _ _ Hd) as (Hsorted & Hnd & Hin).
  assert (∀ id t, (id, t) ∈ docs ↔
            store !! id = Some t ∧ user t = caller req ∧ category t = c) as Hin'.
  { intros id t. rewrite Hin. cbn -[truthy]. rewrite (truthy_Some c Hc). split.
    - intros (? & ? & H & _). split_and!; try done. by apply H.
    - intros (? & ? & ?). split_and!; try done. by intros ? [= <-]. }
  split_and!; try done.
  intros Hwf Hunknown. destruct docs as [|[id t] docs]; [done|].
  destruct (proj1 (Hin' id t)) as (Hid & _ & Hcat); [left|].
  pose proof (Hwf _ _ Hid) as Hw. unfold wellFormed in Hw.
  rewrite !andb_true_iff in Hw. destruct Hw as [[[_ Hk] _] _].
  change (isIn c categories = false) in Hunknown. congruence.
Qed.

Lemma category_route_witness :
  handle noon (request GET ["category"; "Personal"] Body.empty) fourTasks
  = (listTasks noon u1 (Query.mk (Some "Personal") None None None) fourTasks, fourTasks).
Proof.
  exact (proj1 (category_route noon (request GET ["category"; "Personal"] Body.empty)
                  fourTasks "Personal" eq_refl eq_refl ltac:(discriminate))).
Defined.

Lemma same_local_day tz t v :
  localMidnight tz ((t + tz) / msPerDay) ≤ v
    ≤ localMidnight tz ((t + tz) / msPerDay) + 86399999
  ↔ (v + tz) / msPerDay = (t + tz) / msPerDay.
Proof.
  unfold localMidnight, msPerDay. set (day := (t + tz) / 86400000). split.
  - intros H. symmetry.
    apply (Z.div_unique_pos (v + tz) 86400000 day (v + tz - day * 86400000)); lia.
  - intros <-. pose proof (Z.div_mod (v + tz) 86400000 ltac:(lia)).
    pose proof (Z.mod_pos_bound (v + tz) 86400000 ltac:(lia)). lia.
Qed.

(** X16. On a server whose local time is at a constant offset from UTC,
    the date filter of List reads its text as an instant and, when that
    instant is a day and more away from both ends of the range of [Date],
    selects the caller's tasks that are due on the local calendar day of
    the instant; with a text that [Date] cannot read the answer is a server
    error. *)
Theorem date_filter_selects_local_day env caller store text :
  text ≠ "" →
  (newDate env text = None →
     listTasks env caller (Query.mk None None None (Some text)) store = RespServerError)
  ∧ (∀ at_, newDate env text = Some at_ → awayFromEnds at_ →
       ∃ docs, listTasks env caller (Query.mk None None None (Some text)) store
               = RespTasks docs
         ∧ ∀ id t, (id, t) ∈ docs ↔
             store !! id = Some t ∧ user t = caller
             ∧ ∃ v, dueDate t = Some v
                    ∧ (v + tzOffset env) / msPerDay = (at_ + tzOffset env) / msPerDay).
Proof.
  intros Ht. split.
  - intros Hn. unfold listTasks, dayRange. cbn -[truthy].
    by rewrite (truthy_Some _ Ht), Hn.
  - intros at_ Hn _.
    destruct (listTasks_answers env caller store (Query.mk None None None (Some text)))
      as [docs Hd].
    { cbn -[truthy]. rewrite (truthy_Some _ Ht). intros ? [= <-]. by rewrite Hn. }
    exists docs. split; [done|].
    destruct (listTasks_exact _ _ _ _ _ Hd) as (_ & _ & Hin).
    intros id t. rewrite Hin. cbn -[truthy]. rewrite (truthy_Some _ Ht).
    split.
    + intros (? & ? & _ & _ & _ & H). split_and!; try done.
      destruct (H text eq_refl) as (lo & hi & v & Hr & Hv & Hle).
      rewrite (dayRange_local_day _ _ _ Hn) in Hr. injection Hr as <- <-.
      exists v. split; [done|]. by apply same_local_day.
    + intros (? & ? & v & Hv & Hday). split_and!; try done.
      intros ? [= <-]. do 2 eexists. exists v.
      split; [by apply dayRange_local_day|]. split; [done|]. by apply same_local_day.
Qed.

Lemma date_filter_selects_local_day_witness :
  ∃ docs, listTasks west u1 onTenth twoDue = RespTasks docs
    ∧ ∀ id t, (id, t) ∈ docs ↔
        twoDue !! id = Some t ∧ user t = u1
        ∧ ∃ v, dueDate t = Some v
               ∧ (v + tzOffset west) / msPerDay
                 = (1715299200000 + tzOffset west) / msPerDay.
Proof.
  apply (proj2 (date_filter_selects_local_day west u1 twoDue "2024-05-10"
                  ltac:(discriminate)) 1715299200000); [reflexivity|].
  unfold awayFromEnds, maxDate, msPerDay. lia.
Defined.

(** X17. GET /due/:date answers with the tasks that List answers with
    when that date is its only filter, or with a server error where List
    does (the two differ in the envelope of the JSON only), and leaves the
    collection as it is. *)
Theorem due_route env req store date :
  method req = GET → segments req = ["due"; date] → date ≠ "" →
  handle env req store
  = (listTasks env (caller req) (Query.mk None None None (Some date)) store, store).
Proof.
  intros Hm Hs Hd. unfold handle. rewrite Hm, Hs, (dispatch_due date Hd).
  unfold listTasks, tasksByDueDate. cbn -[truthy dayRange sortByOrder find].
  rewrite (truthy_Some date Hd).
  by destruct (dayRange env date).
Qed.

Lemma due_route_witness :
  handle noon (request GET ["due"; "2024-05-10"] Body.empty) twoDue
  = (listTasks noon u1 onTenth twoDue, twoDue).
Proof.
  exact (due_route noon (request GET ["due"; "2024-05-10"] Body.empty) twoDue
           "2024-05-10" eq_refl eq_refl ltac:(discriminate)).
Defined.

(** ** A title of white space *)

Lemma ltrim_blank l : Forall (λ a, Ascii.is_space a = true) l → ltrim l = [].
Proof. induction 1 as [|a l Ha _ IH]; simpl; [done|]. by rewrite Ha. Qed.

Lemma trim_blank s :
  Forall (λ a, Ascii.is_space a = true) (list_ascii_of_string s) → trim s = "".
Proof. intros H. unfold trim. by rewrite (ltrim_blank _ H). Qed.

(** X18. A title that consists of white space only is an absent title to
    Create and to Update: both answer with the error 'Title is required' and
    change nothing. *)
Theorem blank_title_rejected env caller id b store s :
  Body.title b = Some s →
  Forall (λ a, Ascii.is_space a = true) (list_ascii_of_string s) →
  mkError "title" "Title is required" ∈ (validateTask (clock env) b).2
  ∧ createTask env caller b store
    = (RespValidation (validateTask (clock env) b).2, store)
  ∧ updateTask env caller id b store
    = (RespValidation (validateTask (clock env) b).2, store).
Proof.
  intros Hs Hblank.
  assert (mkError "title" "Title is required" ∈ (validateTask (clock env) b).2) as He.
  { rewrite validateTask_errors, Hs. unfold validateTitle; simpl.
    rewrite (trim_blank s Hblank). apply list_elem_of_here. }
  eauto using createTask_rejects, updateTask_rejects.
Qed.

Lemma blank_title_rejected_witness :
  mkError "title" "Title is required" ∈ (validateTask (clock noon) blankTitle).2
  ∧ createTask noon u1 blankTitle ∅
    = (RespValidation (validateTask (clock noon) blankTitle).2, ∅)
  ∧ updateTask noon u1 firstId blankTitle ∅
    = (RespValidation (validateTask (clock noon) blankTitle).2, ∅).
Proof.
  apply (blank_title_rejected noon u1 firstId blankTitle ∅ "   "); [reflexivity|].
  repeat constructor.
Defined.

(** ** Authentication in front of the routes *)

(** X19. Every route is behind the middleware: without a token, with an
    empty one, or with one that the verification rejects, the answer is 401
    and the collection is not touched; an answer of a route is that of the
    router run for the principal that the token decodes to. *)
Theorem routes_behind_auth e env token req store :
  (truthy token = None
   ∨ (∃ tok name, truthy token = Some tok ∧ verify e tok (secretOrKey e) = Thrown name) →
   ∃ d, serve e env token req store = (Unauthorized d, store))
  ∧ (∀ r st, serve e env token req store = (Answer r, st) →
       ∃ tok id, truthy token = Some tok
                 ∧ verify e tok (secretOrKey e) = Decoded id
                 ∧ handle env (withUser id req) store = (r, st)).
Proof.
  unfold serve, auth. split.
  - intros [H | (tok & name & H & Hv)]; rewrite H; [eexists; reflexivity|].
    rewrite Hv. destruct (String.eqb name "TokenExpiredError"); [eexists; reflexivity|].
    destruct (String.eqb name "JsonWebTokenError"); eexists; reflexivity.
  - intros r st. destruct (truthy token) as [tok|]; [|discriminate].
    destruct (verify e tok (secretOrKey e)) as [id|name] eqn:Hv.
    + destruct (handle env (withUser id req) store) as [r' st'] eqn:Hh.
      intros [= <- <-]. eauto.
    + destruct (String.eqb name "TokenExpiredError"); [discriminate|].
      destruct (String.eqb name "JsonWebTokenError"); discriminate.
Qed.

Lemma routes_behind_auth_witness :
  ∃ d, serve oneToken noon (Some "stale") (request DELETE [firstId] Body.empty)
         {[1%N := milk]} = (Unauthorized d, {[1%N := milk]}).
Proof.
  apply (proj1 (routes_behind_auth oneToken noon (Some "stale")
                  (request DELETE [firstId] Body.empty) {[1%N := milk]})).
  right. exists "stale", "TokenExpiredError". split; reflexivity.
Defined.

(** X20. The [error] of a 401 answer tells the four causes apart: no
    token, an expired token, a token that is not valid, and any other
    failure of the verification. *)
Theorem auth_reasons e token d :
  auth e token = inl d →
  (error d = "AUTH_TOKEN_MISSING" ∧ truthy token = None)
  ∨ ∃ tok name,
      truthy token = Some tok ∧ verify e tok (secretOrKey e) = Thrown name
      ∧ ((error d = "TOKEN_EXPIRED" ∧ name = "TokenExpiredError")
         ∨ (error d = "INVALID_TOKEN" ∧ name = "JsonWebTokenError")
         ∨ (error d = "TOKEN_VERIFICATION_FAILED"
            ∧ name ≠ "TokenExpiredError" ∧ name ≠ "JsonWebTokenError")).
Proof.
  unfold auth. destruct (truthy token) as [tok|]; [|intros [= <-]; auto].
  destruct (verify e tok (secretOrKey e)) as [id|name] eqn:Hv; [discriminate|].
  intros H. right. exists tok, name. split; [done|]. split; [done|].
  destruct (String.eqb_spec name "TokenExpiredError") as [-> | Hne1].
  { injection H as <-. auto. }
  destruct (String.eqb_spec name "JsonWebTokenError") as [-> | Hne2].
  { injection H as <-. auto. }
  injection H as <-. auto.
Qed.

Lemma auth_reasons_witness :
  (error (mkDenial "Token has expired" "TOKEN_EXPIRED") = "AUTH_TOKEN_MISSING"
   ∧ truthy (Some "stale") = None)
  ∨ ∃ tok name,
      truthy (Some "stale") = Some tok
      ∧ verify oneToken tok (secretOrKey oneToken) = Thrown name
      ∧ ((error (mkDenial "Token has expired" "TOKEN_EXPIRED") = "TOKEN_EXPIRED"
          ∧ name = "TokenExpiredError")
         ∨ (error (mkDenial "Token has expired" "TOKEN_EXPIRED") = "INVALID_TOKEN"
            ∧ name = "JsonWebTokenError")
         ∨ (error (mkDenial "Token has expired" "TOKEN_EXPIRED")
            = "TOKEN_VERIFICATION_FAILED"
            ∧ name ≠ "TokenExpiredError" ∧ name ≠ "JsonWebTokenError")).
Proof.
  apply (auth_reasons oneToken (Some "stale")). reflexivity.
Defined.

(** X21. A request whose payload carries the declared paths of the
    schema and no other key leaves alone every task whose owner is not the
    principal that its token decodes to, whatever its method and path. *)
Theorem serve_isolates_principals e env token req store id t :
  store !! id = Some t →
  (∀ tok u, truthy token = Some tok → verify e tok (secretOrKey e) = Decoded u →
            user t ≠ u) →
  (serve e env token req store).2 !! id = Some t.
Proof.
  intros Hid Hother. unfold serve, auth.
  destruct (truthy token) as [tok|]; [|done].
  destruct (verify e tok (secretOrKey e)) as [u|name] eqn:Hv.
  - pose proof (handle_foreign env (withUser u req) store id t Hid
                  (Hother tok u eq_refl Hv)) as H.
    by destruct (handle env (withUser u req) store).
  - destruct (String.eqb name "TokenExpiredError"); [done|].
    by destruct (String.eqb name "JsonWebTokenError").
Qed.

Lemma serve_isolates_principals_witness :
  (serve oneToken noon (Some "good") (request DELETE [fourthId] Body.empty) fourTasks).2
    !! 4%N = Some (plain u2 "four" 8).
Proof.
  apply (serve_isolates_principals oneToken noon (Some "good")
           (request DELETE [fourthId] Body.empty) fourTasks 4%N (plain u2 "four" 8));
    [reflexivity|].
  intros tok u [= <-] [= <-]. discriminate.
Defined.

(** ** Reorder, again and with List *)

Lemma last_mention (items : list ObjectId) id :
  id ∈ items →
  ∃ i, items !! i = Some id ∧ ∀ j, (i < j)%nat → items !! j ≠ Some id.
Proof.
  induction items as [|x items IH] using rev_ind; [by intros ?%elem_of_nil|].
  intros Hin. destruct (decide (x = id)) as [-> | Hne].
  - exists (length items). split.
    + by rewrite lookup_app_r, Nat.sub_diag by lia.
    + intros j Hj Hjx. apply lookup_lt_Some in Hjx.
      rewrite length_app in Hjx. simpl in Hjx. lia.
  - apply elem_of_app in Hin as [Hin | Hin%list_elem_of_singleton]; [|congruence].
    destruct (IH Hin) as (i & Hi & Hlast). exists i. split.
    + rewrite lookup_app_l; [done|]. by apply lookup_lt_Some in Hi.
    + intros j Hj Hjx.
      destruct (decide (j < length items)%nat) as [Hlt | Hge].
      * rewrite lookup_app_l in Hjx by done. by apply (Hlast j).
      * rewrite lookup_app_r in Hjx by lia.
        destruct (j - length items)%nat; simpl in Hjx; [congruence|].
        by rewrite lookup_nil in Hjx.
Qed.

(** X22. Reorder is idempotent on the declared fields: the same payload
    a second time answers the same and leaves every task with the [order]
    and the other declared fields that the first time has left it with.
    (The [updatedAt] of [timestamps: true], which each write stamps, is not
    one of them.) *)
Theorem reorder_twice caller tasks store :
  reorderTasks caller tasks (reorderTasks caller tasks store).2
  = reorderTasks caller tasks store.
Proof.
  destruct tasks as [|items]; [done|]. cbn [reorderTasks snd]. f_equal.
  pose proof (bulkWrite_reordered caller store items) as [Habs Hkept Hfor Hunn Hpos].
  set (st := bulkWrite caller (bulkOps items) store) in *.
  pose proof (bulkWrite_reordered caller st items) as [Habs' _ Hfor' Hunn' Hpos'].
  apply map_eq. intros id.
  destruct (store !! id) as [t|] eqn:E; [|by rewrite (Habs' _ (Habs _ E)), (Habs _ E)].
  destruct (decide (id ∈ items)) as [Hin | Hnin]; [|by apply Hunn'].
  destruct (decide (user t = caller)) as [Hu | Hu].
  - destruct (last_mention items id Hin) as (i & Hi & Hlast).
    rewrite (Hpos _ _ _ E Hu Hi Hlast).
    by rewrite (Hpos' id (setOrder (Z.of_nat i) t) i (Hpos _ _ _ E Hu Hi Hlast) Hu Hi Hlast).
  - rewrite (Hfor _ _ E Hu). apply Hfor'; [by apply Hfor | done].
Qed.

Lemma seq_sorted j n : StronglySorted le (seq j n).
Proof.
  revert j. induction n as [|n IH]; intros j; simpl; constructor; [apply IH|].
  apply Forall_seq. lia.
Qed.

(** X23. Reorder and then List: when the sequence names each task of the
    caller once and nothing else, the unfiltered List of the caller answers
    with the tasks in the order of the sequence, the task at position [k]
    with [order] [k]. *)
Theorem reorder_then_list env caller items store :
  NoDup items →
  (∀ id, id ∈ items ↔ ∃ t, store !! id = Some t ∧ user t = caller) →
  ∃ docs,
    listTasks env caller Query.empty (reorderTasks caller (TasksArray items) store).2
    = RespTasks docs
    ∧ docs.*1 = items
    ∧ ∀ k d, docs !! k = Some d → order d.2 = Z.of_nat k.
Proof.
  intros Hnd Hitems. cbn [reorderTasks snd].
  pose proof (bulkWrite_reordered caller store items) as [Habs Hkept Hfor Hunn Hpos].
  set (st := bulkWrite caller (bulkOps items) store) in *.
  destruct (listTasks_unfiltered env caller st) as (docs & Hd & Hsorted & Hndd & Hin).
  exists docs. split; [done|].
  (* every listed document sits at its rank in the sequence *)
  assert (∀ d, d ∈ docs → items !! rank d = Some d.1 ∧ order d.2 = Z.of_nat (rank d))
    as Hrank.
  { intros [id t'] [Hst Hu]%Hin. simpl.
    destruct (store !! id) as [t|] eqn:E; [|by rewrite (Habs _ E) in Hst].
    destruct (Hkept _ _ E) as (t'' & Ht'' & Hsame).
    rewrite Hst in Ht''. injection Ht'' as <-.
    assert (user t = caller) as Hut by by rewrite <- (sameButOrder_user _ _ Hsame).
    assert (id ∈ items) as [i Hi]%list_elem_of_lookup_1 by (apply Hitems; eauto).
    rewrite (Hpos _ _ _ E Hut Hi (NoDup_last_mention _ _ _ Hnd Hi)) in Hst.
    injection Hst as <-. unfold rank; simpl. by rewrite Nat2Z.id. }
  (* every position of the sequence is the rank of a listed document *)
  assert (∀ i id, items !! i = Some id → ∃ d, d ∈ docs ∧ d.1 = id ∧ rank d = i)
    as Hcover.
  { intros i id Hi.
    destruct (proj1 (Hitems id)) as (t & E & Hut); [by eapply list_elem_of_lookup_2|].
    exists (id, setOrder (Z.of_nat i) t). split; [|split; [done|]].
    - apply Hin. split; [|done].
      apply (Hpos _ _ _ E Hut Hi (NoDup_last_mention _ _ _ Hnd Hi)).
    - unfold rank; simpl. apply Nat2Z.id. }
  (* so the ranks are 0, 1, ... in this order *)
  assert (rank <$> docs = seq 0 (length items)) as Hranks.
  { apply (StronglySorted_unique le).
    - eapply StronglySorted_fmap; [|exact Hsorted].
      intros a b. unfold byOrder, rank. lia.
    - apply seq_sorted.
    - apply NoDup_Permutation.
      + apply NoDup_fmap_2_strong; [|done].
        intros [ida ta] [idb tb] Ha Hb Heq.
        destruct (Hrank _ Ha) as [Hia _], (Hrank _ Hb) as [Hib _].
        rewrite Heq in Hia. simpl in *.
        assert (ida = idb) as -> by congruence.
        apply Hin in Ha as [Ha _], Hb as [Hb _]. congruence.
      + apply NoDup_seq.
      + intros k. rewrite list_elem_of_fmap, elem_of_seq. split.
        * intros (d & -> & [Hi _]%Hrank). apply lookup_lt_Some in Hi. lia.
        * intros [_ Hk]. destruct (lookup_lt_is_Some_2 items k Hk) as [id Hi].
          destruct (Hcover _ _ Hi) as (d & ? & _ & <-). eauto. }
  assert (∀ k d, docs !! k = Some d → rank d = k) as Hat.
  { intros k d Hk.
    pose proof (list_lookup_fmap_Some_2 rank _ _ _ Hk) as Hr.
    rewrite Hranks in Hr. apply lookup_seq in Hr as [-> _]. done. }
  split.
  - apply list_eq. intros k. rewrite list_lookup_fmap.
    destruct (docs !! k) as [d|] eqn:Hk; simpl.
    + destruct (Hrank d) as [Hi _]; [by eapply list_elem_of_lookup_2|].
      by rewrite <- Hi, (Hat _ _ Hk).
    + symmetry. apply lookup_ge_None. apply lookup_ge_None in Hk.
      rewrite <- (length_fmap rank), Hranks, length_seq in Hk. done.
  - intros k d Hk. destruct (Hrank d) as [_ Ho]; [by eapply list_elem_of_lookup_2|].
    by rewrite Ho, (Hat _ _ Hk).
Qed.

Lemma reorder_then_list_witness :
  ∃ docs,
    listTasks noon u1 Query.empty
      (reorderTasks u1 (TasksArray [3%N; 1%N; 2%N]) fourTasks).2 = RespTasks docs
    ∧ docs.*1 = [3%N; 1%N; 2%N]
    ∧ ∀ k d, docs !! k = Some d → order d.2 = Z.of_nat k.
Proof.
  apply (reorder_then_list noon u1 [3%N; 1%N; 2%N] fourTasks).
  - apply (bool_decide_unpack (NoDup [3%N; 1%N; 2%N])). exact I.
  - intros id. split.
    + intros [-> | [-> | [-> | []%elem_of_nil]%elem_of_cons]%elem_of_cons]%elem_of_cons;
        eexists; split; reflexivity.
    + intros (t & Hid & Hu). unfold fourTasks in Hid.
      repeat (apply lookup_insert_Some in Hid as [[<- <-] | [_ Hid]];
              [by repeat constructor|]).
      apply lookup_singleton_Some in Hid as [<- <-]. discriminate Hu.
Defined.

(** ** What Create and Update store *)

(** X24. An Update with a payload that passes validation, on a task of
    the caller that satisfies the schema and has no date that is past, is
    applied, whatever status the task has and whatever status the payload
    asks for: the three statuses are not ordered. *)
Theorem valid_update_is_applied env caller id oid b store t :
  castObjectId id = Some oid → findOne oid caller store = Some t →
  (validateTask (clock env) b).2 = [] →
  (∀ v, Body.dueDate b = Some v → is_Some (getTime v)) →
  (∀ v, Body.reminder b = Some v → is_Some (getTime v)) →
  Body.user b = None →
  wellFormed t = true →
  futureOrUnset (clock env) (dueDate t) = true →
  futureOrUnset (clock env) (reminder t) = true →
  ∃ t', updateTask env caller id b store = (RespTask oid t', <[oid := t']> store)
        ∧ status t' = default (status t) (Body.status b)
        ∧ user t' = caller.
Proof.
  intros Hc Hf Hv Hd Hr Hu Hwf Hdue Hrem.
  pose proof (validateTask_accepted _ _ Hv) as Hacc.
  destruct (accepted_required _ _ Hacc) as (s & c & p & Hs & Hcat & Hpri).
  destruct Hacc as [Ht Htl Hdesc Hcin Hpin Hst Hdd Hrr].
  unfold wellFormed in Hwf. rewrite !andb_true_iff in Hwf.
  destruct Hwf as [[[[_ Hwd] _] _] Hws].
  assert (∃ t1, assign (validateTask (clock env) b).1 t = Some t1) as [t1 Ha].
  { rewrite validateTask_body. unfold assign; simpl. rewrite Hu.
    destruct (Body.dueDate b) as [v|] eqn:E1;
      [destruct (Hd v eq_refl) as [x ->]|]; simpl;
      (destruct (Body.reminder b) as [w|] eqn:E2;
        [destruct (Hr w eq_refl) as [y ->]|]; simpl; eauto). }
  assert (status t1 = default (status t) (Body.status b)) as Hs1.
  { pose proof (assign_fields _ _ _ Ha) as (H & _). by rewrite validateTask_body in H. }
  assert (schemaValid (clock env) t1 = true) as Hsv.
  { pose proof (assign_merge _ _ _ Ha) as (Ht1 & Hd1 & Hc1 & Hp1 & Hdue1 & Hrem1 & _).
    rewrite validateTask_body in Ht1, Hd1, Hc1, Hp1, Hdue1, Hrem1; simpl in *.
    rewrite Hs in Ht1, Ht, Htl. rewrite Hcat in Hc1, Hcin. rewrite Hpri in Hp1, Hpin.
    simpl in *.
    unfold schemaValid. rewrite Ht1, Hd1, Hc1, Hp1, Hs1, !trim_idem.
    repeat (apply andb_true_intro; split); try done.
    - by apply negb_true_iff, String.eqb_neq.
    - destruct (Body.description b) as [d|]; simpl; [|done].
      rewrite trim_idem. by apply Hdesc.
    - destruct (Body.status b) as [v|]; simpl; [by apply Hst | done].
    - destruct (Body.dueDate b) as [v|] eqn:E; simpl in Hdue1.
      + pose proof (accepted_future (clock env) (Some v)) as Hfut. simpl in Hfut.
        destruct (getTime v) as [x|]; simpl in *; [|done].
        injection Hdue1 as ->. apply Hfut. by intros ? [= <-]; apply Hdd.
      + by injection Hdue1 as ->.
    - destruct (Body.reminder b) as [v|] eqn:E; simpl in Hrem1.
      + pose proof (accepted_future (clock env) (Some v)) as Hfut. simpl in Hfut.
        destruct (getTime v) as [x|]; simpl in *; [|done].
        injection Hrem1 as ->. apply Hfut. by intros ? [= <-]; apply Hrr.
      + by injection Hrem1 as ->. }
  assert (user t1 = caller) as Hown.
  { pose proof (assign_fields _ _ _ Ha) as (_ & _ & H & _).
    rewrite validateTask_body in H; simpl in H. rewrite Hu in H; simpl in H.
    apply findOne_Some in Hf as [_ <-]. congruence. }
  exists t1. rewrite updateTask_accepts by done. cbv zeta.
  by rewrite Hc, Hf, Ha, (stamp_never_fires _ _ _ Ha), Hsv.
Qed.

Lemma valid_update_is_applied_witness :
  ∃ t', updateTask noon u1 firstId reopenMilk {[1%N := completed]}
        = (RespTask 1%N t', <[1%N := t']> {[1%N := completed]})
        ∧ status t' = default (status completed) (Body.status reopenMilk)
        ∧ user t' = u1.
Proof.
  apply (valid_update_is_applied noon u1 firstId 1%N reopenMilk {[1%N := completed]}
           completed); try reflexivity; try discriminate.
Defined.

(** X25. What Create stores comes from the payload and from the schema's
    defaults alone: the title trimmed, status Pending and order 0 unless the
    payload has them, [createdAt] the current time unless the payload has
    one, and [completedAt] only if the payload has one, also for a task that
    is created as Completed. *)
Theorem created_task_fields env caller b store id t :
  (createTask env caller b store).1 = RespCreated id t →
  ∃ s c p,
    id = nextId env ∧ user t = caller
    ∧ Body.title b = Some s ∧ title t = trim s
    ∧ Body.category b = Some c ∧ category t = c
    ∧ Body.priority b = Some p ∧ priority t = p
    ∧ description t = trim <$> Body.description b
    ∧ status t = default "Pending" (Body.status b)
    ∧ order t = default 0 (Body.order b)
    ∧ createdAt t = default (clock env) (Body.createdAt b)
    ∧ completedAt t = Body.completedAt b
    ∧ castDate (Body.dueDate b) = Some (dueDate t)
    ∧ castDate (Body.reminder b) = Some (reminder t).
Proof.
  intros Hr.
  destruct (createTask_outcome env caller store b _ _ (surjective_pairing _))
    as [[_ Herr] | (t0 & Hr' & _ & _ & Hn & _ & Hv)].
  { rewrite Hr in Herr. by destruct Herr. }
  rewrite Hr in Hr'. injection Hr' as -> ->.
  destruct (accepted_required _ _ (validateTask_accepted _ _ Hv))
    as (s & c & p & Hs & Hc & Hp).
  rewrite validateTask_body in Hn. unfold newTask in Hn; simpl in Hn.
  destruct (castDate (Body.dueDate b)) as [due|]; simpl in Hn; [|discriminate Hn].
  destruct (castDate (Body.reminder b)) as [rm|]; simpl in Hn; [|discriminate Hn].
  injection Hn as <-; simpl. rewrite Hs, Hc, Hp; simpl.
  exists s, c, p. rewrite trim_idem. split_and!; try done.
  destruct (Body.description b); simpl; [by rewrite trim_idem | done].
Qed.

Lemma created_task_fields_witness :
  ∃ t, (createTask noon u1 bornCompleted ∅).1 = RespCreated 1%N t
       ∧ title t = "Buy milk" ∧ status t = "Completed" ∧ completedAt t = None.
Proof.
  assert ((createTask noon u1 bornCompleted ∅).1
          = RespCreated 1%N (mkTask "Buy milk" None "Personal" "Low" "Completed" None None
                               0 u1 1715342400000 None)) as Hfirst by reflexivity.
  eexists. split; [exact Hfirst|].
  destruct (created_task_fields noon u1 bornCompleted ∅ 1%N _ Hfirst)
    as (s & c & p & _ & _ & Hs & Ht & _ & _ & _ & _ & _ & Hst & _ & _ & Hco & _).
  injection Hs as <-. split; [exact Ht|]. split; [exact Hst | exact Hco].
Defined.
